(** * Macro-indicator dashboard: dataset cache and series resampler

    A shallow embedding of [app.py] and [utils/data_loader.py].

    Modelling decisions, once for the whole file:
    - a pandas [Timestamp] is a calendar date (year, month, day); time of
      day and time zones are not represented;
    - a float is an exact rational, and NaN is [None]: the arithmetic of
      the resampler is the arithmetic of [Q], rounding error of the
      binary format is not represented;
    - a Python [str] is a [string] of UTF-8 bytes;
    - a DataFrame is a list of rows, a Series a list of (index, value)
      pairs, a dict a [gmap];
    - the functions of Python and pandas whose behaviour on arbitrary
      text is theirs alone ([str.upper], [str.lower], [str.strip],
      [pd.to_datetime]) are the fields of the class [PyLib]; every
      statement holds for every implementation of that class. *)

From Stdlib Require Import ZArith QArith Qabs String Ascii List Lia.
From stdpp Require Import base option list gmap strings sorting pretty.

Open Scope string_scope.
Open Scope Z_scope.

(** ** Calendar dates *)

Record date := mkdate { year : Z; month : Z; day : Z }.

Global Instance date_eq_dec : EqDecision date.
Proof. solve_decision. Defined.

Definition is_leap (y : Z) : bool :=
  ((y mod 4 =? 0) && negb (y mod 100 =? 0)) || (y mod 400 =? 0).

Definition days_in_month (y m : Z) : Z :=
  if (m =? 2) then (if is_leap y then 29 else 28)
  else if (m =? 4) || (m =? 6) || (m =? 9) || (m =? 11) then 30
  else 31.

Definition valid_date (d : date) : Prop :=
  1 ≤ month d ≤ 12 ∧ 1 ≤ day d ≤ days_in_month (year d) (month d).

Global Instance valid_date_dec d : Decision (valid_date d).
Proof. unfold valid_date. apply _. Defined.

(** Months counted from year 0: the position of a date's month on the
    time axis. *)
Definition month_index (d : date) : Z := 12 * year d + (month d - 1).

(** Chronological order: by month, then by day of the month. *)
Definition date_le (d1 d2 : date) : Prop :=
  month_index d1 < month_index d2 ∨
  (month_index d1 = month_index d2 ∧ day d1 ≤ day d2).

Global Instance date_le_dec : RelDecision date_le.
Proof. intros d1 d2. unfold date_le. apply _. Defined.

(** The order of the (year, month, day) triples, for comparison. *)
Definition date_lex_le (d1 d2 : date) : Prop :=
  year d1 < year d2 ∨
  (year d1 = year d2 ∧
   (month d1 < month d2 ∨ (month d1 = month d2 ∧ day d1 ≤ day d2))).

(** [pd.Timestamp]: a date or [NaT]. *)
Inductive Timestamp := NaT | TS (d : date).

(** [column >= t] and [column <= t] on one entry of a datetime column:
    every comparison with [NaT] is false. *)
Definition ts_ge (d : date) (t : Timestamp) : Prop :=
  match t with NaT => False | TS b => date_le b d end.
Definition ts_le (d : date) (t : Timestamp) : Prop :=
  match t with NaT => False | TS b => date_le d b end.

Global Instance ts_ge_dec d t : Decision (ts_ge d t).
Proof. destruct t; simpl; apply _. Defined.
Global Instance ts_le_dec d t : Decision (ts_le d t).
Proof. destruct t; simpl; apply _. Defined.

(** ** Cells of the sheet as [pd.read_excel] returns them *)

Inductive Cell :=
  | CStr (s : string)
  | CNum (q : Q)
  | CDate (d : date)
  | CNaN.

(** ** The library functions the program calls on arbitrary text *)

Class PyLib := {
  (** [str.upper], [str.lower], [str.strip] *)
  str_upper : string → string;
  str_lower : string → string;
  str_strip : string → string;
  (** [str(x)] of a float and of a timestamp, as [astype(str)] uses them *)
  float_str : Q → string;
  date_str : date → string;
  (** [pd.to_datetime] of one string; [None] when it raises *)
  to_datetime : string → option Timestamp;
  (** [pd.to_datetime] on one cell of a column; [None] when it raises.
      The rows of the model carry a date: a sheet with a cell that
      converts to [NaT] is outside the model. *)
  cell_to_datetime : Cell → option date;
  (** The text "nan" that [astype(str)] makes of a missing cell has
      nothing to strip and only ASCII letters to change. *)
  upper_nan : str_strip (str_upper "nan") = "NAN";
  lower_nan : str_strip (str_lower "nan") = "nan";
}.

(** [astype(str)] on one cell: a missing cell becomes the text "nan". *)
Definition astype_str `{PyLib} (c : Cell) : string :=
  match c with
  | CStr s => s
  | CNum q => float_str q
  | CDate d => date_str d
  | CNaN => "nan"
  end.

(** ** The dataset *)

(** One row of the normalised DataFrame. The text columns hold a string
    or are missing ([None] is NaN); [Value] holds a number or is missing. *)
Record Row := mkRow {
  Date : date;
  Name : option string;
  Value : option Q;
  Unit : option string;
  Freq : string;
  Method : string;
  Alias : option string;
}.

Abbreviation DataFrame := (list Row).

(** A Series indexed by date. *)
Abbreviation Series := (list (date * option Q)).

(** ** Configuration *)

Definition NATIVE_FREQ_LOCK : gmap string string :=
  <["Инфляция, % м/м" := "M"]> (<["ВВП, % г/г" := "A"]> ∅).

(** The offset aliases of pandas that the program uses. *)
Inductive Offset := MonthEnd | QuarterEnd | YearEndDec.

(** [FREQ_RULE]: "M" -> "M", "Q" -> "Q", "A" -> "A-DEC". *)
Definition FREQ_RULE : gmap string Offset :=
  <["M" := MonthEnd]> (<["Q" := QuarterEnd]> (<["A" := YearEndDec]> ∅)).

(** ** pandas: resampling to month, quarter and year ends *)

Definition months_per (o : Offset) : Z :=
  match o with MonthEnd => 1 | QuarterEnd => 3 | YearEndDec => 12 end.

(** The number of the period (month, calendar quarter, calendar year)
    that a date lies in. *)
Definition period_of (o : Offset) (d : date) : Z :=
  month_index d / months_per o.

Definition date_of_month_index (mi : Z) (day_of : Z → Z → Z) : date :=
  let y := mi / 12 in
  let m := mi mod 12 + 1 in
  mkdate y m (day_of y m).

(** First and last day of period [p]; the last day is the label that
    pandas gives the period. *)
Definition period_start (o : Offset) (p : Z) : date :=
  date_of_month_index (p * months_per o) (λ _ _, 1).
Definition period_end (o : Offset) (p : Z) : date :=
  date_of_month_index ((p + 1) * months_per o - 1) days_in_month.

(** [GroupBy.mean] on one group: the running sum and the count of the
    entries that are not missing; no entry gives NaN. *)
Definition mean_step (acc : Q * Z) (v : option Q) : Q * Z :=
  match v with
  | Some x => (Qplus acc.1 x, acc.2 + 1)
  | None => acc
  end.
Definition group_mean (vs : list (option Q)) : option Q :=
  let acc := fold_left mean_step vs (0%Q, 0) in
  if decide (acc.2 = 0) then None
  else Some (Qred (Qdiv acc.1 (inject_Z acc.2))).

(** [GroupBy.last] on one group: the last entry that is not missing. *)
Definition last_step (acc v : option Q) : option Q :=
  match v with Some x => Some x | None => acc end.
Definition group_last (vs : list (option Q)) : option Q :=
  fold_left last_step vs None.

(** [Series.sort_index]. *)
Definition index_le (a b : date * option Q) : Prop := date_le a.1 b.1.
Global Instance index_le_dec : RelDecision index_le.
Proof. intros a b. unfold index_le. apply _. Defined.
Definition sort_index (s : Series) : Series := merge_sort index_le s.

(** The entries of a sorted series up to the right edge of period [p],
    and the rest: one bin of [generate_bins_dt64], closed on the right. *)
Fixpoint split_bin (o : Offset) (p : Z) (s : Series) : Series * Series :=
  match s with
  | [] => ([], [])
  | e :: s' =>
      if decide (period_of o e.1 ≤ p)
      then let br := split_bin o p s' in (e :: br.1, br.2)
      else ([], s)
  end.

(** [n] consecutive bins from period [p] on, each labelled with its
    last day and aggregated with [agg]. *)
Fixpoint bins (o : Offset) (agg : list (option Q) → option Q)
    (n : nat) (p : Z) (s : Series) : Series :=
  match n with
  | O => []
  | S n' =>
      let br := split_bin o p s in
      (period_end o p, agg (br.1.*2)) :: bins o agg n' (p + 1) br.2
  end.

(** [s.resample(rule).agg()]: the index is sorted, the bins run from the
    period of the first date to the period of the last one, and an empty
    series gives an empty series. *)
Definition resample (o : Offset) (agg : list (option Q) → option Q)
    (s : Series) : Series :=
  let s' := sort_index s in
  match head s', last s' with
  | Some first, Some final =>
      let p0 := period_of o first.1 in
      let p1 := period_of o final.1 in
      bins o agg (Z.to_nat (p1 - p0 + 1)) p0 s'
  | _, _ => []
  end.

(** ** Utilities of [app.py] *)

Definition pad2 (n : Z) : string :=
  if decide (0 ≤ n < 10) then "0" +:+ pretty n else pretty n.

(** [dt.strftime("%d.%m.%Y")] *)
Definition _format_date (dt : date) : string :=
  pad2 (day dt) +:+ "." +:+ pad2 (month dt) +:+ "." +:+ pretty (year dt).

(** [dt.strftime("%Y-%m-%d")] *)
Definition iso_date (dt : date) : string :=
  pretty (year dt) +:+ "-" +:+ pad2 (month dt) +:+ "-" +:+ pad2 (day dt).

(** Nearest integer of a rational that is not negative, ties to even. *)
Definition round_half_even (q : Q) : Z :=
  let n := Qnum q in
  let d := Z.pos (Qden q) in
  let fl := n / d in
  match 2 * (n mod d) ?= d with
  | Lt => fl
  | Gt => fl + 1
  | Eq => if Z.even fl then fl else fl + 1
  end.

(** The fractional digits, padded with zeros on the left to [k] places. *)
Fixpoint frac_digits (k : nat) (n : Z) : string :=
  match k with
  | O => ""
  | S k' => frac_digits k' (n / 10) +:+ pretty (n mod 10)
  end.

(** [f"{x:.kf}"]: sign, integer part, point, [k] digits. *)
Definition format_fixed (k : nat) (x : Q) : string :=
  let scale := 10 ^ Z.of_nat k in
  let n := round_half_even (Qmult (Qabs x) (inject_Z scale)) in
  (if decide (Qnum x < 0) then "-" else "") +:+
  pretty (n / scale) +:+ "." +:+ frac_digits k (n mod scale).

Definition _round_val (x : option Q) : string :=
  match x with
  | None => ""
  | Some q =>
      if Qle_bool 1 (Qabs q) then format_fixed 1 q else format_fixed 2 q
  end.

(** [df[df["Alias"] == alias]] *)
Definition rows_of (df : DataFrame) (alias : string) : DataFrame :=
  filter (λ r, Alias r = Some alias) df.

(** [str()] of a text cell inside an f-string. *)
Definition text_of (c : option string) : string := default "nan" c.

Definition _alias_unit_method (df : DataFrame) (alias : string)
    : string * string * string :=
  let sub := rows_of df alias in
  match sub with
  | [] => (alias, "", "avg")
  | r :: _ =>
      let name := text_of (Alias r) in
      let unit := default "" (head (omap Unit sub)) in
      let method := Method r in
      (name, unit, method)
  end.

Definition _native_freq (df : DataFrame) (alias : string) : string :=
  match rows_of df alias with
  | [] => "M"
  | r :: _ => Freq r
  end.

Definition _resample_series (s : Series) (freq method : string) : Series :=
  let rule := default MonthEnd (FREQ_RULE !! freq) in
  if decide (method = "eop") then resample rule group_last s
  else resample rule group_mean s.

(** A bound is used when it is given and not the empty string; when
    [pd.to_datetime] raises, the [except] clause leaves the frame as it
    was. *)
Definition _apply_period_filter `{PyLib} (df : Series)
    (dfrom dto : option string) : Series :=
  let df1 :=
    match dfrom with
    | Some s =>
        if decide (s = "") then df
        else match to_datetime s with
             | Some t => filter (λ r, ts_ge r.1 t) df
             | None => df
             end
    | None => df
    end in
  match dto with
  | Some s =>
      if decide (s = "") then df1
      else match to_datetime s with
           | Some t => filter (λ r, ts_le r.1 t) df1
           | None => df1
           end
  | None => df1
  end.

(** The frequency that the two builders use: the lock first, then the
    native frequency for "AUTO", then the caller's word as it is. *)
Definition freq_use_of (alias freq_view native : string) : string :=
  match NATIVE_FREQ_LOCK !! alias with
  | Some locked =>
      if decide (locked = "") then
        (if decide (freq_view = "AUTO") then native else freq_view)
      else locked
  | None => if decide (freq_view = "AUTO") then native else freq_view
  end.

(** [sub.set_index("Date")["Value"].astype(float).sort_index()] *)
Definition series_of (sub : DataFrame) : Series :=
  sort_index ((λ r, (Date r, Value r)) <$> sub).

Definition _build_table `{PyLib} (df : DataFrame) (alias freq_view : string)
    (dfrom dto : option string)
    : list string * list (list string) * nat * string :=
  let sub := rows_of df alias in
  match sub with
  | [] => (["Дата"; alias], [], 0%nat, "M")
  | r0 :: _ =>
      let native := Freq r0 in
      let freq_use := freq_use_of alias freq_view native in
      let '(name, unit, method) := _alias_unit_method df alias in
      let s := series_of sub in
      let s := if decide (freq_use ≠ native)
               then _resample_series s freq_use method else s in
      let s := _apply_period_filter s dfrom dto in
      let method_text :=
        if decide (method = "avg") then "в среднем за период"
        else "на конец периода" in
      let col2 :=
        if decide (unit = "") then name +:+ " (" +:+ method_text +:+ ")"
        else name +:+ " (" +:+ method_text +:+ ", " +:+ unit +:+ ")" in
      let columns := ["Дата"; col2] in
      let rows := (λ e, [_format_date e.1; _round_val e.2]) <$> s in
      (columns, rows, length rows, native)
  end.

Definition _build_series `{PyLib} (df : DataFrame) (alias freq_view : string)
    (dfrom dto : option string)
    : list string * list (option Q) * gmap string string :=
  let sub := rows_of df alias in
  match sub with
  | [] => ([], [], {["native" := "M"]})
  | r0 :: _ =>
      let native := Freq r0 in
      let freq_use := freq_use_of alias freq_view native in
      let '(name, unit, method) := _alias_unit_method df alias in
      let s := series_of sub in
      let s := if decide (freq_use ≠ native)
               then _resample_series s freq_use method else s in
      let s := _apply_period_filter s dfrom dto in
      let x_iso := (λ e, iso_date e.1) <$> s in
      let y := s.*2 in
      let meta : gmap string string :=
        <["native" := native]> (<["freq_used" := freq_use]>
        (<["name" := name]> (<["unit" := unit]>
        (<["method" := method]> ∅)))) in
      (x_iso, y, meta)
  end.

(** ** Exceptions and the file system *)

Inductive Exn :=
  | FileNotFoundError (msg : string)
  | ValueError (msg : string)
  | DatetimeError
  | AttributeError.

Inductive result (A : Type) :=
  | Ok (a : A)
  | Raise (e : Exn).
Arguments Ok {A} a.
Arguments Raise {A} e.

(** The sheet as [pd.read_excel] returns it: column labels and rows of
    cells. *)
Record RawFrame := mkRaw { columns : list string; body : list (list Cell) }.

(** A file: its modification time and, for a workbook, its sheets. *)
Record File := mkFile { st_mtime : Z; sheets : gmap string RawFrame }.

(** The world outside the process: the files by path, and a counter of
    the calls of the parser, kept to observe them. *)
Record World := mkWorld { files : gmap string File; parser_calls : nat }.

Definition count_call (w : World) : World :=
  mkWorld (files w) (S (parser_calls w)).

(** ** [DataCache._read_excel]: reading and normalising the sheet *)

Definition cols_map : gmap string string :=
  list_to_map [
    ("date", "Date"); ("дата", "Date");
    ("name", "Name"); ("indicator", "Name"); ("naimenovanie", "Name");
    ("value", "Value"); ("znachenie", "Value");
    ("unit", "Unit"); ("единицы", "Unit");
    ("freq", "Freq"); ("частота", "Freq");
    ("method", "Method"); ("метод", "Method");
    ("alias", "Alias"); ("псевдоним", "Alias")
  ].

Definition std_col `{PyLib} (c : string) : string :=
  let key := str_strip c in
  let k_low := str_lower key in
  default key (cols_map !! k_low).

Definition required : list string :=
  ["Date"; "Name"; "Value"; "Unit"; "Freq"; "Method"].

(** [df[name]] on one row: the cell under the first column of that
    label. *)
Definition cell (cols : list string) (name : string) (row : list Cell)
    : Cell :=
  default CNaN (i ← fst <$> list_find (λ c, c = name) cols; row !! i).

(** The model reads [Name], [Unit] and [Alias] as text and [Value] as a
    number; the program leaves these columns as they are. *)
Definition as_text `{PyLib} (c : Cell) : option string :=
  match c with
  | CNaN => None
  | _ => Some (astype_str c)
  end.
Definition as_float (c : Cell) : option Q :=
  match c with
  | CNum q => Some q
  | _ => None
  end.

Definition freq_codes : gmap string string :=
  list_to_map [("M", "M"); ("Q", "Q"); ("A", "A"); ("A-DEC", "A")].
Definition method_codes : gmap string string :=
  list_to_map [("avg", "avg"); ("average", "avg"); ("mean", "avg");
               ("eop", "eop"); ("end", "eop"); ("last", "eop")].

(** [.astype(str).str.upper().str.strip().map({...}).fillna("M")] *)
Definition norm_freq `{PyLib} (c : Cell) : string :=
  default "M" (freq_codes !! str_strip (str_upper (astype_str c))).
(** [.astype(str).str.lower().str.strip().map({...}).fillna("avg")] *)
Definition norm_method `{PyLib} (c : Cell) : string :=
  default "avg" (method_codes !! str_strip (str_lower (astype_str c))).

Definition mk_row `{PyLib} (cols : list string) (row : list Cell)
    : option Row :=
  d ← cell_to_datetime (cell cols "Date" row);
  let alias_col := if decide ("Alias" ∈ cols) then "Alias" else "Name" in
  Some {|
    Date := d;
    Name := as_text (cell cols "Name" row);
    Value := as_float (cell cols "Value" row);
    Unit := as_text (cell cols "Unit" row);
    Freq := norm_freq (cell cols "Freq" row);
    Method := norm_method (cell cols "Method" row);
    Alias := as_text (cell cols alias_col row);
  |}.

(** [sort_values(["Alias", "Date"])]: by alias, missing aliases last,
    then by date. *)
Definition alias_le (a b : option string) : Prop :=
  match a, b with
  | Some x, Some y => String.le x y
  | _, None => True
  | None, Some _ => False
  end.
Global Instance alias_le_dec : RelDecision alias_le.
Proof. intros [x|] [y|]; simpl; apply _. Defined.

Definition row_le (r1 r2 : Row) : Prop :=
  alias_le (Alias r1) (Alias r2) ∧
  (Alias r1 = Alias r2 → date_le (Date r1) (Date r2)).
Global Instance row_le_dec : RelDecision row_le.
Proof. intros r1 r2. unfold row_le. apply _. Defined.

(** Lines 89 to 139: from the sheet to the normalised DataFrame. *)
Definition normalise `{PyLib} (sheet : string) (raw : RawFrame)
    : result DataFrame :=
  let cols := std_col <$> columns raw in
  match list_find (λ r, r ∉ cols) required with
  | Some (_, r) =>
      Raise (ValueError ("В листе '" +:+ sheet +:+
                         "' отсутствует обязательный столбец: " +:+ r))
  | None =>
      match mapM (mk_row cols) (body raw) with
      | None => Raise DatetimeError
      | Some rows => Ok (merge_sort row_le rows)
      end
  end.

Module App.

Record DataCache := mkCache {
  path : string;
  sheet : string;
  mtime : Z;
  df : option DataFrame;
}.

(** [DataCache.__init__] *)
Definition init (path sheet : string) : DataCache :=
  mkCache path sheet 0 None.

Definition _read_excel `{PyLib} (self : DataCache) (w : World)
    : result DataFrame * World :=
  let w' := count_call w in
  match files w !! path self with
  | None =>
      (Raise (FileNotFoundError ("Не найден файл данных: " +:+ path self)),
       w')
  | Some f =>
      match sheets f !! sheet self with
      | None => (Raise (ValueError "Worksheet not found"), w')
      | Some raw => (normalise (sheet self) raw, w')
      end
  end.

(** The result, the cache after the call and the world after it. *)
Definition get_df `{PyLib} (self : DataCache) (w : World)
    : result DataFrame * DataCache * World :=
  match files w !! path self with
  | None =>
      (Raise (FileNotFoundError (path self)), self, w)
  | Some f =>
      let mtime' := st_mtime f in
      if decide (df self = None ∨ mtime' ≠ mtime self) then
        match _read_excel self w with
        | (Ok d, w') =>
            (Ok d, mkCache (path self) (sheet self) mtime' (Some d), w')
        | (Raise e, w') => (Raise e, self, w')
        end
      else
        match df self with
        | Some d => (Ok d, self, w)
        | None => (Raise AttributeError, self, w)
        end
  end.

End App.

(** ** [utils/data_loader.py] *)

Module DataLoader.

Record DataCache := mkCache {
  path : string;
  date_column : string;
  excel_sheet : option string;
  _last_mtime : option Z;
  _df : option RawFrame;
}.

Section get_df.
(** [_load] reads the file at the path of the cache; it is taken as
    it is. *)
Variable _load : DataCache → World → result RawFrame.

Definition get_df (self : DataCache) (w : World)
    : result RawFrame * DataCache * World :=
  match files w !! path self with
  | None =>
      (Raise (FileNotFoundError ("Data file not found: " +:+ path self)),
       self, w)
  | Some f =>
      let mtime := st_mtime f in
      if decide (_df self = None ∨ _last_mtime self = None ∨
                 Some mtime ≠ _last_mtime self) then
        match _load self w with
        | Ok d =>
            (Ok d,
             mkCache (path self) (date_column self) (excel_sheet self)
                     (Some mtime) (Some d),
             count_call w)
        | Raise e => (Raise e, self, count_call w)
        end
      else
        match _df self with
        | Some d => (Ok d, self, w)
        | None => (Raise AttributeError, self, w)
        end
  end.
End get_df.

End DataLoader.

(** ** An implementation of [PyLib] on ASCII text

    It agrees with Python and pandas on the inputs that the examples of
    this file use: ASCII letters and blanks, dates written YYYY-MM-DD,
    and text without any digit, on which [pd.to_datetime] raises. *)

Module AsciiLib.

Definition upper_char (c : ascii) : ascii :=
  let n := nat_of_ascii c in
  if decide (97 ≤ n ≤ 122)%nat then ascii_of_nat (n - 32) else c.
Definition lower_char (c : ascii) : ascii :=
  let n := nat_of_ascii c in
  if decide (65 ≤ n ≤ 90)%nat then ascii_of_nat (n + 32) else c.

Fixpoint map_chars (f : ascii → ascii) (s : string) : string :=
  match s with
  | EmptyString => EmptyString
  | String c s' => String (f c) (map_chars f s')
  end.

Definition is_blank (c : ascii) : bool :=
  let n := nat_of_ascii c in
  bool_decide (n = 32 ∨ 9 ≤ n ≤ 13)%nat.

Fixpoint lstrip (s : string) : string :=
  match s with
  | String c s' => if is_blank c then lstrip s' else s
  | EmptyString => EmptyString
  end.
Definition strip (s : string) : string :=
  String.rev (lstrip (String.rev (lstrip s))).

Definition digit (c : ascii) : option Z :=
  let n := nat_of_ascii c in
  if decide (48 ≤ n ≤ 57)%nat then Some (Z.of_nat (n - 48)) else None.

Fixpoint number (acc : Z) (cs : list ascii) : option Z :=
  match cs with
  | [] => Some acc
  | c :: cs' => d ← digit c; number (10 * acc + d) cs'
  end.

Definition parse_iso (s : string) : option Timestamp :=
  match list_ascii_of_string s with
  | [y1; y2; y3; y4; "-"%char; m1; m2; "-"%char; d1; d2] =>
      y ← number 0 [y1; y2; y3; y4];
      m ← number 0 [m1; m2];
      d ← number 0 [d1; d2];
      let dt := mkdate y m d in
      if decide (valid_date dt) then Some (TS dt) else None
  | _ => None
  end.

Definition cell_date (c : Cell) : option date :=
  match c with
  | CDate d => Some d
  | CStr s => match parse_iso s with Some (TS d) => Some d | _ => None end
  | _ => None
  end.

Global Instance lib : PyLib := {|
  str_upper := map_chars upper_char;
  str_lower := map_chars lower_char;
  str_strip := strip;
  float_str := format_fixed 1;
  date_str := iso_date;
  to_datetime := parse_iso;
  cell_to_datetime := cell_date;
  upper_nan := eq_refl;
  lower_nan := eq_refl;
|}.

End AsciiLib.

(** ** The routes of [app.py]: which indicators, and which by default *)

(** [Series.unique().tolist()]: the values in the order in which they
    first appear. *)
Fixpoint unique {A} `{EqDecision A} (l : list A) : list A :=
  match l with
  | [] => []
  | x :: l' => x :: filter (λ y, y ≠ x) (unique l')
  end.

(** [api_indicators]: the aliases that are not missing, sorted by the
    key [(prefer.index(x) if x in prefer else 999, x)]. The model
    returns the list [ordered] that the route wraps in JSON. *)
Definition prefer : list string :=
  ["USD/RUB"; "Инфляция, % м/м"; "Ключевая ставка"; "ВВП, % г/г"].

Definition rank (x : string) : nat :=
  match list_find (λ p, p = x) prefer with
  | Some (i, _) => i
  | None => 999
  end.

(** The order of Python on the pairs (rank, text). *)
Definition listing_le (x y : string) : Prop :=
  (rank x < rank y)%nat ∨ (rank x = rank y ∧ String.le x y).
Global Instance listing_le_dec : RelDecision listing_le.
Proof. intros x y. unfold listing_le. apply _. Defined.

Definition api_indicators (df : DataFrame) : list string :=
  let inds := unique (omap Alias df) in
  merge_sort listing_le inds.

(** What a route raises before it reaches the builders. *)
Inductive RouteError := TypeError | IndexError.

(** [index], without a name in the query: the aliases, missing ones
    included, are sorted, which raises [TypeError] when a missing alias
    (a float) has to be compared with a text; then the first of
    "USD/RUB", "Ключевая ставка" that is an alias is taken, or else the
    first of the sorted aliases, which raises [IndexError] on an empty
    dataset. [inr None] is the missing alias itself. *)
Definition index_indicators (df : DataFrame)
    : RouteError + list (option string) :=
  let u := unique (Alias <$> df) in
  if decide (None ∈ u ∧ (2 ≤ length u)%nat) then inl TypeError
  else inr (merge_sort alias_le u).

Definition index_default_name (df : DataFrame)
    : RouteError + option string :=
  match index_indicators df with
  | inl e => inl e
  | inr indicators =>
      match list_find (λ p, Some p ∈ indicators)
                      ["USD/RUB"; "Ключевая ставка"] with
      | Some (_, p) => inr (Some p)
      | None =>
          match indicators with
          | [] => inl IndexError
          | a :: _ => inr a
          end
      end
  end.

(** [table_data] and [api_series_multi], without a name in the query:
    [df["Alias"].iloc[0]], the alias of the first row. *)
Definition first_row_name (df : DataFrame) : RouteError + option string :=
  match df with
  | [] => inl IndexError
  | r :: _ => inr (Alias r)
  end.

(** ** Basic authentication: [security.py] and the same in [app.py] *)

Module Security.

(** [os.getenv(key, default)] on the environment as a dict. *)
Definition getenv (env : gmap string string) (key fallback : string)
    : string :=
  default fallback (env !! key).

(** [request.authorization] when the request carries one. *)
Record Authorization := mkAuth {
  username : option string;
  password : option string;
}.

Record Response := mkResponse {
  data : string;
  status_code : Z;
  headers : gmap string string;
}.

Definition _basic_auth_required (env : gmap string string) : bool :=
  bool_decide (getenv env "REQUIRE_BASIC_AUTH" "0" = "1").

Definition _check_auth (env : gmap string string)
    (username password : option string) : bool :=
  bool_decide (username = Some (getenv env "BASIC_AUTH_USER" "user")) &&
  bool_decide (password = Some (getenv env "BASIC_AUTH_PASS" "pass")).

(** The double quote character. *)
Definition dquote : string := String (ascii_of_nat 34) EmptyString.

Definition _authenticate : Response :=
  mkResponse "Нужна авторизация" 401
    {["WWW-Authenticate" :=
        "Basic realm=" +:+ dquote +:+ "Login Required" +:+ dquote]}.

(** [None]: the request goes on to its route. *)
Definition maybe_require_auth (env : gmap string string)
    (authorization : option Authorization) : option Response :=
  if negb (_basic_auth_required env) then None
  else match authorization with
       | None => Some _authenticate
       | Some auth =>
           if negb (_check_auth env (username auth) (password auth))
           then Some _authenticate
           else None
       end.

Definition add_noindex_headers (resp : Response) : Response :=
  mkResponse (data resp) (status_code resp)
    (<["X-Robots-Tag" := "noindex, nofollow"]> (headers resp)).

End Security.

(** In [app.py] the three settings are read from the environment once,
    when the module is loaded. *)
Record AuthConfig := mkAuthConfig {
  REQUIRE_BASIC_AUTH : bool;
  BASIC_AUTH_USER : string;
  BASIC_AUTH_PASS : string;
}.

Definition auth_config (env : gmap string string) : AuthConfig :=
  mkAuthConfig
    (bool_decide (Security.getenv env "REQUIRE_BASIC_AUTH" "0" = "1"))
    (Security.getenv env "BASIC_AUTH_USER" "user")
    (Security.getenv env "BASIC_AUTH_PASS" "pass").

Definition _check_auth (cfg : AuthConfig) (u p : option string) : bool :=
  bool_decide (u = Some (BASIC_AUTH_USER cfg)) &&
  bool_decide (p = Some (BASIC_AUTH_PASS cfg)).

Definition _maybe_basic_auth (cfg : AuthConfig)
    (authorization : option Security.Authorization)
    : option Security.Response :=
  if negb (REQUIRE_BASIC_AUTH cfg) then None
  else match authorization with
       | None => Some Security._authenticate
       | Some auth =>
           if negb (_check_auth cfg (Security.username auth)
                      (Security.password auth))
           then Some Security._authenticate
           else None
       end.

(** ** [utils/data_loader.py]: [__init__] and [_load] *)

(** [str.rfind(c)]: the last position of [c], or -1. *)
Fixpoint rfind_from (c : ascii) (l : list ascii) (i acc : Z) : Z :=
  match l with
  | [] => acc
  | x :: l' => rfind_from c l' (i + 1) (if decide (x = c) then i else acc)
  end.
Definition rfind (c : ascii) (p : string) : Z :=
  rfind_from c (list_ascii_of_string p) 0 (-1).

(** [os.path.splitext] on a POSIX path: the extension starts at the
    last dot, when that dot comes after the last slash and after some
    character of the file name that is not a dot. *)
Definition splitext (p : string) : string * string :=
  let cs := list_ascii_of_string p in
  let sepIndex := rfind "/" p in
  let dotIndex := rfind "." p in
  if decide (sepIndex < dotIndex) then
    let name := take (Z.to_nat (dotIndex - (sepIndex + 1)))
                     (drop (Z.to_nat (sepIndex + 1)) cs) in
    if decide (Exists (λ c, c ≠ "."%char) name)
    then (string_of_list_ascii (take (Z.to_nat dotIndex) cs),
          string_of_list_ascii (drop (Z.to_nat dotIndex) cs))
    else (p, "")
  else (p, "").

Module DataLoaderFile.

Section load.
Context `{PyLib}.

(** [pd.read_excel(path)], [pd.read_excel(path, sheet_name=s)] and
    [pd.read_csv(path)], which read the files of the world; taken as
    they are. With one sheet name or none [read_excel] returns one
    frame, so the branch for a dict of frames is not reached. *)
Variable read_excel : string → option string → World → result RawFrame.
Variable read_csv : string → World → result RawFrame.

(** [DataCache.__init__]: a sheet name is stripped, and blank counts as
    not given. *)
Definition init (path date_column : string) (excel_sheet : option string)
    : DataLoader.DataCache :=
  let sheet := str_strip <$> excel_sheet in
  let sheet := if decide (sheet = Some "") then None else sheet in
  DataLoader.mkCache path date_column sheet None None.

(** [pd.to_datetime] on one cell of the date column: a missing cell
    stays missing. *)
Definition date_cell (c : Cell) : option Cell :=
  match c with
  | CNaN => Some CNaN
  | _ => CDate <$> cell_to_datetime c
  end.

(** [df[col] = pd.to_datetime(df[col])] inside [try ... except: pass]:
    the column is converted as a whole or left as it is. With the label
    on several columns [df[col]] is a frame, on which [pd.to_datetime]
    raises. *)
Definition convert_date_column (col : string) (df : RawFrame) : RawFrame :=
  match (filter (λ ic : nat * string, ic.2 = col)
                (imap pair (columns df))).*1 with
  | [i] =>
      match mapM (λ row, c ← date_cell (default CNaN (row !! i));
                         Some (<[i := c]> row)) (body df) with
      | Some rows => mkRaw (columns df) rows
      | None => df
      end
  | _ => df
  end.

Definition _load (self : DataLoader.DataCache) (w : World)
    : result RawFrame :=
  let ext := str_lower (splitext (DataLoader.path self)).2 in
  let read :=
    if decide (ext = ".xlsx") then
      match DataLoader.excel_sheet self with
      | None => read_excel (DataLoader.path self) None w
      | Some sh => read_excel (DataLoader.path self) (Some sh) w
      end
    else if decide (ext = ".csv") then read_csv (DataLoader.path self) w
    else Raise (ValueError ("Unsupported data file format: " +:+ ext)) in
  match read with
  | Ok df => Ok (convert_date_column (DataLoader.date_column self) df)
  | Raise e => Raise e
  end.

End load.

End DataLoaderFile.

(** ** Data for the examples *)

Definition usd (d : date) (v : Z) : Row :=
  mkRow d (Some "Курс доллара") (Some (inject_Z v)) (Some "руб.")
        "M" "avg" (Some "USD/RUB").

(** The monthly average series of the scenario: 90.0 on 2024-01-15 and
    92.0 on 2024-02-15. *)
Definition usd_rub : DataFrame :=
  [usd (mkdate 2024 1 15) 90; usd (mkdate 2024 2 15) 92].

Definition gdp (d : date) (v : Z) : Row :=
  mkRow d (Some "Валовой внутренний продукт") (Some (inject_Z v))
        (Some "%") "A" "avg" (Some "ВВП, % г/г").

Definition gdp_rows : DataFrame :=
  [gdp (mkdate 2022 12 31) (-2); gdp (mkdate 2023 12 31) 3].

(** A monthly end-of-period series: January and February 2024 with a
    value, March missing, April with a value. *)
Definition rate (d : date) (v : option Q) : Row :=
  mkRow d (Some "Ключевая ставка") v (Some "%") "M" "eop" (Some "Ключевая ставка").

Definition key_rate : DataFrame :=
  [rate (mkdate 2024 1 10) (Some (inject_Z 16));
   rate (mkdate 2024 2 16) (Some (inject_Z 15));
   rate (mkdate 2024 3 22) None;
   rate (mkdate 2024 4 26) (Some (inject_Z 14))].

(** A workbook whose only sheet is called "other": the sheet "main"
    that the cache asks for is not there, so reading it raises. *)
Definition book_without_main : File :=
  mkFile 1700000000 {["other" := mkRaw [] []]}.

Definition world_without_main : World :=
  mkWorld {["macro_data.xlsx" := book_without_main]} 0.

(** A workbook with the two rows of the scenario on its sheet "main",
    under column labels that the synonym table has to resolve. *)
Definition usd_sheet : RawFrame :=
  mkRaw ["Date"; " VALUE "; "indicator"; "Unit"; "freq"; "Method"; "alias"]
    [[CDate (mkdate 2024 2 15); CNum (inject_Z 92); CStr "Курс доллара";
      CStr "руб."; CStr " m "; CStr "Mean"; CStr "USD/RUB"];
     [CDate (mkdate 2024 1 15); CNum (inject_Z 90); CStr "Курс доллара";
      CStr "руб."; CNaN; CStr "?"; CStr "USD/RUB"]].

Definition usd_book : File := mkFile 1700000000 {["main" := usd_sheet]}.

Definition usd_world : World :=
  mkWorld {["macro_data.xlsx" := usd_book]} 0.

(** ** Notions that the statements use *)


(** The series of an alias before the date filter: the selected rows as
    a sorted series, resampled when the frequency used is not the
    native one. *)
Definition series_before_filter (df : DataFrame) (alias freq_view : string)
    : Series :=
  match rows_of df alias with
  | [] => []
  | r0 :: sub =>
      let freq_use := freq_use_of alias freq_view (Freq r0) in
      if decide (freq_use ≠ Freq r0)
      then _resample_series (series_of (r0 :: sub)) freq_use (Method r0)
      else series_of (r0 :: sub)
  end.

(** The second column header of the table for a given indicator name. *)
Definition header_for (name method unit : string) : string :=
  let method_text :=
    if decide (method = "avg") then "в среднем за период"
    else "на конец периода" in
  if decide (unit = "") then name +:+ " (" +:+ method_text +:+ ")"
  else name +:+ " (" +:+ method_text +:+ ", " +:+ unit +:+ ")".

(** A date within the calendar bounds of period [p]. *)
Definition in_period (o : Offset) (p : Z) (d : date) : Prop :=
  date_le (period_start o p) d ∧ date_le d (period_end o p).
Global Instance in_period_dec o p d : Decision (in_period o p d).
Proof. unfold in_period. apply _. Defined.


(** The rows of an alias dated within period [p], and their values that
    are not missing: the inputs of that period. *)
Definition period_rows (o : Offset) (p : Z) (df : DataFrame)
    (alias : string) : DataFrame :=
  filter (λ r, Alias r = Some alias ∧ in_period o p (Date r)) df.

(** The two code tables in the words of the specification: what a
    trimmed, case-folded code stands for, and the default for any other
    text. *)
Definition freq_of_code (key : string) : string :=
  if decide (key = "M") then "M"
  else if decide (key = "Q") then "Q"
  else if decide (key = "A" ∨ key = "A-DEC") then "A"
  else "M".
Definition method_of_code (key : string) : string :=
  if decide (key = "avg" ∨ key = "average" ∨ key = "mean") then "avg"
  else if decide (key = "eop" ∨ key = "end" ∨ key = "last") then "eop"
  else "avg".

(** The condition of [get_df] for reading the file again. *)
Definition stale (self : App.DataCache) (f : File) : Prop :=
  App.df self = None ∨ st_mtime f ≠ App.mtime self.
Definition loader_stale (self : DataLoader.DataCache) (f : File) : Prop :=
  DataLoader._df self = None ∨ DataLoader._last_mtime self = None ∨
  Some (st_mtime f) ≠ DataLoader._last_mtime self.

(** A sheet without an alias column, and one without a unit column. *)
Definition plain_sheet : RawFrame :=
  mkRaw ["Date"; "Name"; "Value"; "Unit"; "Freq"; "Method"]
    [[CDate (mkdate 2024 1 15); CStr "USD/RUB"; CNum (inject_Z 90);
      CStr "руб."; CStr "M"; CStr "avg"]].

Definition sheet_without_unit : RawFrame :=
  mkRaw ["Date"; "Name"; "Value"; "Freq"; "Method"]
    [[CStr "no date here"; CStr "USD/RUB"; CNum (inject_Z 90);
      CStr "M"; CStr "avg"]].

(** ** A second implementation of [PyLib]

    As [AsciiLib], with the text "NaT", which [pd.to_datetime] reads as
    the missing timestamp. *)

Module NaTLib.

Definition parse (s : string) : option Timestamp :=
  if decide (s = "NaT") then Some NaT else AsciiLib.parse_iso s.

Global Instance lib : PyLib := {|
  str_upper := AsciiLib.map_chars AsciiLib.upper_char;
  str_lower := AsciiLib.map_chars AsciiLib.lower_char;
  str_strip := AsciiLib.strip;
  float_str := format_fixed 1;
  date_str := iso_date;
  to_datetime := parse;
  cell_to_datetime := AsciiLib.cell_date;
  upper_nan := eq_refl;
  lower_nan := eq_refl;
|}.

End NaTLib.

(** * Properties *)

(** ** Selection of the rows of an alias *)

Lemma rows_of_nil (df : DataFrame) (alias : string) :
  (∀ r, r ∈ df → Alias r ≠ Some alias) → rows_of df alias = [].
Proof.
  intros Hno. unfold rows_of.
  induction df as [|r df IH]; [done|].
  rewrite filter_cons. destruct (decide (Alias r = Some alias)) as [Heq|_].
  - exfalso. apply (Hno r); [left|done].
  - apply IH. intros r' Hr'. apply Hno. by right.
Qed.

Lemma rows_of_alias (df : DataFrame) (alias : string) (r : Row) :
  r ∈ rows_of df alias ↔ r ∈ df ∧ Alias r = Some alias.
Proof. unfold rows_of. rewrite list_elem_of_filter. tauto. Qed.

Lemma rows_of_head (df : DataFrame) (alias : string) (r : Row) sub :
  rows_of df alias = r :: sub → Alias r = Some alias.
Proof.
  intros Heq. assert (r ∈ rows_of df alias) as Hin by (rewrite Heq; left).
  apply rows_of_alias in Hin. tauto.
Qed.

(** ** The frequency lock *)



(** C5: an alias that matches no row of the dataset gives the empty
    table with no row, total 0 and native frequency "M", and the empty
    series with the metadata native = "M" alone; both are plain results,
    not exceptions. *)
Theorem unknown_alias_gives_empty `{PyLib} (df : DataFrame)
    (alias freq_view : string) (dfrom dto : option string) :
  (∀ r, r ∈ df → Alias r ≠ Some alias) →
  _build_table df alias freq_view dfrom dto
    = (["Дата"; alias], [], 0%nat, "M") ∧
  _build_series df alias freq_view dfrom dto
    = ([], [], {["native" := "M"]}).
Proof.
  intros Hno. unfold _build_table, _build_series.
  by rewrite (rows_of_nil df alias Hno).
Qed.

Lemma unknown_alias_gives_empty_witness :
  _build_table (H := AsciiLib.lib) usd_rub "EUR/RUB" "Q" None (Some "2024-12-31")
    = (["Дата"; "EUR/RUB"], [], 0%nat, "M") ∧
  _build_series (H := AsciiLib.lib) usd_rub "EUR/RUB" "Q" None (Some "2024-12-31")
    = ([], [], {["native" := "M"]}).
Proof.
  apply (unknown_alias_gives_empty (H := AsciiLib.lib)).
  intros r Hr. unfold usd_rub in Hr.
  apply elem_of_cons in Hr as [->|Hr]; [discriminate|].
  apply elem_of_cons in Hr as [->|Hr]; [discriminate|].
  by apply elem_of_nil in Hr.
Defined.



(** ** The date filter *)



Lemma filter_with_dates `{PyLib} (s : Series) (sfrom sto : string) (a b : date) :
  sfrom ≠ "" → sto ≠ "" →
  to_datetime sfrom = Some (TS a) → to_datetime sto = Some (TS b) →
  _apply_period_filter s (Some sfrom) (Some sto)
    = filter (λ e, date_le a e.1 ∧ date_le e.1 b) s.
Proof.
  intros Hf Ht Ha Hb. unfold _apply_period_filter.
  rewrite !decide_False by done. rewrite Ha, Hb. simpl.
  rewrite list_filter_filter. apply list_filter_iff. intros e. tauto.
Qed.

(** The two builders are the formatting of the filtered series. *)
Lemma build_table_rows `{PyLib} (df : DataFrame) (alias fv : string)
    (dfrom dto : option string) :
  let kept := _apply_period_filter (series_before_filter df alias fv)
                dfrom dto in
  (_build_table df alias fv dfrom dto).1.1.2
    = (λ e, [_format_date e.1; _round_val e.2]) <$> kept ∧
  (_build_table df alias fv dfrom dto).1.2 = length kept.
Proof.
  unfold _build_table, series_before_filter, _alias_unit_method.
  destruct (rows_of df alias) as [|r0 sub]; simpl.
  - by destruct dfrom, dto; simpl; repeat case_decide;
      repeat case_match.
  - by rewrite length_fmap.
Qed.

Lemma build_series_xy `{PyLib} (df : DataFrame) (alias fv : string)
    (dfrom dto : option string) :
  let kept := _apply_period_filter (series_before_filter df alias fv)
                dfrom dto in
  (_build_series df alias fv dfrom dto).1.1 = (λ e, iso_date e.1) <$> kept ∧
  (_build_series df alias fv dfrom dto).1.2 = kept.*2.
Proof.
  unfold _build_series, series_before_filter, _alias_unit_method.
  destruct (rows_of df alias) as [|r0 sub]; simpl; [|done].
  by destruct dfrom, dto; simpl; repeat case_decide; repeat case_match.
Qed.





(** C6: with two bounds that parse to dates, the table and the series
    hold exactly the entries of the series as it stands after resampling
    whose date lies between the bounds, both ends included. *)
Theorem date_filter_inclusive_after_resampling `{PyLib} (df : DataFrame)
    (alias fv sfrom sto : string) (a b : date) :
  sfrom ≠ "" → sto ≠ "" →
  to_datetime sfrom = Some (TS a) → to_datetime sto = Some (TS b) →
  let s := series_before_filter df alias fv in
  let kept := filter (λ e, date_le a e.1 ∧ date_le e.1 b) s in
  (∀ e, e ∈ kept ↔ e ∈ s ∧ date_le a e.1 ∧ date_le e.1 b) ∧
  (_build_table df alias fv (Some sfrom) (Some sto)).1.1.2
    = (λ e, [_format_date e.1; _round_val e.2]) <$> kept ∧
  (_build_table df alias fv (Some sfrom) (Some sto)).1.2 = length kept ∧
  (_build_series df alias fv (Some sfrom) (Some sto)).1.1
    = (λ e, iso_date e.1) <$> kept ∧
  (_build_series df alias fv (Some sfrom) (Some sto)).1.2 = kept.*2.
Proof.
  intros Hf Ht Ha Hb s kept.
  destruct (build_table_rows df alias fv (Some sfrom) (Some sto)) as [Hr Hn].
  destruct (build_series_xy df alias fv (Some sfrom) (Some sto)) as [Hx Hy].
  rewrite (filter_with_dates _ sfrom sto a b Hf Ht Ha Hb) in Hr, Hn, Hx, Hy.
  split; [|by repeat split].
  intros e. subst kept. rewrite list_elem_of_filter. tauto.
Qed.

(** The January observation lies before the lower bound and still
    counts in the quarterly mean 91.0: the bounds select among the
    resampled entries; and the entry dated exactly at the upper bound
    is kept. *)
Lemma date_filter_inclusive_after_resampling_witness :
  (_build_table (H := AsciiLib.lib) usd_rub "USD/RUB" "Q"
     (Some "2024-02-01") (Some "2024-03-31")).1.1.2
    = [["31.03.2024"; "91.0"]] ∧
  (_build_series (H := AsciiLib.lib) usd_rub "USD/RUB" "Q"
     (Some "2024-02-01") (Some "2024-03-31")).1.2 = [Some (inject_Z 91)].
Proof.
  assert (to_datetime (PyLib := AsciiLib.lib) "2024-02-01"
            = Some (TS (mkdate 2024 2 1))) as Ha by (vm_compute; reflexivity).
  assert (to_datetime (PyLib := AsciiLib.lib) "2024-03-31"
            = Some (TS (mkdate 2024 3 31))) as Hb by (vm_compute; reflexivity).
  destruct (date_filter_inclusive_after_resampling (H := AsciiLib.lib)
              usd_rub "USD/RUB" "Q" "2024-02-01" "2024-03-31"
              (mkdate 2024 2 1) (mkdate 2024 3 31)
              ltac:(discriminate) ltac:(discriminate) Ha Hb)
    as (_ & Hr & _ & _ & Hy).
  split.
  - rewrite Hr. vm_compute. reflexivity.
  - rewrite Hy. vm_compute. reflexivity.
Defined.

(** ** The indicator name of the header and of the metadata *)

Lemma alias_unit_method_rows (df : DataFrame) (alias : string) r0 sub :
  rows_of df alias = r0 :: sub →
  _alias_unit_method df alias
    = (alias, default "" (head (omap Unit (r0 :: sub))), Method r0).
Proof.
  intros Hsub. unfold _alias_unit_method. rewrite Hsub.
  by rewrite (rows_of_head _ _ _ _ Hsub).
Qed.

(** C9, as the program has it: for an alias with at least one row, the
    name in the second column header of the table and the name of the
    series metadata are the alias itself, the grouping key; the [Name]
    column is not read. *)
Theorem header_name_is_alias `{PyLib} (df : DataFrame) (alias fv : string)
    (dfrom dto : option string) (r0 : Row) (sub : DataFrame) :
  rows_of df alias = r0 :: sub →
  (_build_table df alias fv dfrom dto).1.1.1
    = ["Дата";
       header_for alias (Method r0)
         (default "" (head (omap Unit (r0 :: sub))))] ∧
  (_build_series df alias fv dfrom dto).2 !! "name" = Some alias.
Proof.
  intros Hsub. unfold _build_table, _build_series.
  rewrite (alias_unit_method_rows _ _ _ _ Hsub), Hsub. split; [done|].
  simpl. rewrite !lookup_insert_ne by done. by rewrite lookup_insert_eq.
Qed.

Lemma header_name_is_alias_witness :
  (_build_table (H := AsciiLib.lib) usd_rub "USD/RUB" "AUTO" None None).1.1.1
    = ["Дата"; "USD/RUB (в среднем за период, руб.)"] ∧
  (_build_series (H := AsciiLib.lib) usd_rub "USD/RUB" "AUTO" None None).2
    !! "name" = Some "USD/RUB".
Proof.
  destruct (header_name_is_alias (H := AsciiLib.lib) usd_rub "USD/RUB"
              "AUTO" None None (usd (mkdate 2024 1 15) 90)
              [usd (mkdate 2024 2 15) 92] eq_refl) as [Ht Hs].
  split; [|exact Hs]. rewrite Ht. vm_compute. reflexivity.
Defined.

(** The rows of "USD/RUB" carry the display name "Курс доллара"; the
    header does not begin with it and the metadata do not return it. *)
Lemma header_name_is_not_display_name :
  (∀ r, r ∈ rows_of usd_rub "USD/RUB" → Name r = Some "Курс доллара") ∧
  rows_of usd_rub "USD/RUB" ≠ [] ∧
  (∀ rest,
     (_build_table (H := AsciiLib.lib) usd_rub "USD/RUB" "AUTO" None None).1.1.1
       ≠ ["Дата"; "Курс доллара" +:+ rest]) ∧
  (_build_series (H := AsciiLib.lib) usd_rub "USD/RUB" "AUTO" None None).2
    !! "name" ≠ Some "Курс доллара".
Proof.
  split; [|split; [|split]].
  - intros r Hr. apply rows_of_alias in Hr as [Hr _]. unfold usd_rub in Hr.
    apply elem_of_cons in Hr as [->|Hr]; [done|].
    apply elem_of_cons in Hr as [->|Hr]; [done|].
    by apply elem_of_nil in Hr.
  - vm_compute. discriminate.
  - intros rest Heq. vm_compute in Heq. discriminate.
  - vm_compute. discriminate.
Qed.

(** ** The cache *)

Lemma read_excel_counts `{PyLib} (self : App.DataCache) (w : World) :
  (App._read_excel self w).2 = count_call w.
Proof.
  unfold App._read_excel.
  destruct (files w !! App.path self) as [f|]; [|done].
  by destruct (sheets f !! App.sheet self).
Qed.

(** What the parser returns depends on the files only. *)
Lemma read_excel_files `{PyLib} (self : App.DataCache) (w w' : World) :
  files w = files w' →
  (App._read_excel self w).1 = (App._read_excel self w').1.
Proof.
  intros Hf. unfold App._read_excel. rewrite Hf.
  destruct (files w' !! App.path self) as [f|]; [|done].
  by destruct (sheets f !! App.sheet self).
Qed.

Lemma get_df_fresh `{PyLib} (self : App.DataCache) (w : World) (f : File) :
  files w !! App.path self = Some f → ¬ stale self f →
  ∃ d, App.df self = Some d ∧ App.get_df self w = (Ok d, self, w).
Proof.
  intros Hf Hns. unfold App.get_df. rewrite Hf. unfold stale in Hns.
  rewrite decide_False by done.
  destruct (App.df self) as [d|] eqn:Hd; [by exists d|].
  exfalso. apply Hns. by left.
Qed.

Lemma get_df_stale `{PyLib} (self : App.DataCache) (w : World) (f : File) :
  files w !! App.path self = Some f → stale self f →
  App.get_df self w =
    match (App._read_excel self w).1 with
    | Ok d =>
        (Ok d,
         App.mkCache (App.path self) (App.sheet self) (st_mtime f) (Some d),
         count_call w)
    | Raise e => (Raise e, self, count_call w)
    end.
Proof.
  intros Hf Hs. unfold App.get_df. rewrite Hf. unfold stale in Hs.
  rewrite decide_True by done.
  pose proof (read_excel_counts self w) as Hc.
  destruct (App._read_excel self w) as [[d|e] w']; simpl in *; by subst.
Qed.

Lemma loader_get_df_fresh (_load : DataLoader.DataCache → World → result RawFrame)
    (self : DataLoader.DataCache) (w : World) (f : File) :
  files w !! DataLoader.path self = Some f → ¬ loader_stale self f →
  ∃ d, DataLoader._df self = Some d ∧
       DataLoader.get_df _load self w = (Ok d, self, w).
Proof.
  intros Hf Hns. unfold DataLoader.get_df. rewrite Hf.
  unfold loader_stale in Hns. rewrite decide_False by done.
  destruct (DataLoader._df self) as [d|] eqn:Hd; [by exists d|].
  exfalso. apply Hns. by left.
Qed.

Lemma loader_get_df_stale (_load : DataLoader.DataCache → World → result RawFrame)
    (self : DataLoader.DataCache) (w : World) (f : File) :
  files w !! DataLoader.path self = Some f → loader_stale self f →
  DataLoader.get_df _load self w =
    match _load self w with
    | Ok d =>
        (Ok d,
         DataLoader.mkCache (DataLoader.path self)
           (DataLoader.date_column self) (DataLoader.excel_sheet self)
           (Some (st_mtime f)) (Some d),
         count_call w)
    | Raise e => (Raise e, self, count_call w)
    end.
Proof.
  intros Hf Hs. unfold DataLoader.get_df. rewrite Hf.
  unfold loader_stale in Hs. by rewrite decide_True by done.
Qed.

Lemma count_call_S (w : World) : parser_calls (count_call w) = S (parser_calls w).
Proof. done. Qed.

(** C4: with the file present, [get_df] of either cache class returns
    the cached dataset, touching neither the cache nor the parser, when
    a dataset is cached and the file's modification time is the cached
    one; the parser is called, once, exactly when no dataset is cached
    or the time differs; and a reload that succeeds puts the new dataset
    and the new time in the cache, whatever was there. *)
Theorem get_df_reloads_exactly_when_stale `{PyLib}
    (self : App.DataCache) (w : World) (f : File)
    (_load : DataLoader.DataCache → World → result RawFrame)
    (lself : DataLoader.DataCache) (lw : World) (lf : File) :
  files w !! App.path self = Some f →
  files lw !! DataLoader.path lself = Some lf →
  ((∀ d, App.df self = Some d → st_mtime f = App.mtime self →
      App.get_df self w = (Ok d, self, w)) ∧
   (parser_calls (App.get_df self w).2 = S (parser_calls w)
      ↔ stale self f) ∧
   (parser_calls (App.get_df self w).2 = parser_calls w
      ↔ ¬ stale self f) ∧
   (∀ d, stale self f → (App._read_excel self w).1 = Ok d →
      App.get_df self w
        = (Ok d,
           App.mkCache (App.path self) (App.sheet self) (st_mtime f) (Some d),
           count_call w))) ∧
  ((∀ d, DataLoader._df lself = Some d →
      DataLoader._last_mtime lself = Some (st_mtime lf) →
      DataLoader.get_df _load lself lw = (Ok d, lself, lw)) ∧
   (parser_calls (DataLoader.get_df _load lself lw).2 = S (parser_calls lw)
      ↔ loader_stale lself lf) ∧
   (parser_calls (DataLoader.get_df _load lself lw).2 = parser_calls lw
      ↔ ¬ loader_stale lself lf) ∧
   (∀ d, loader_stale lself lf → _load lself lw = Ok d →
      DataLoader.get_df _load lself lw
        = (Ok d,
           DataLoader.mkCache (DataLoader.path lself)
             (DataLoader.date_column lself) (DataLoader.excel_sheet lself)
             (Some (st_mtime lf)) (Some d),
           count_call lw))).
Proof.
  intros Hf Hlf. split.
  - assert (Decision (stale self f)) as Hdec by (unfold stale; apply _).
    split; [|split; [|split]].
    + intros d Hd Hm.
      destruct (get_df_fresh self w f Hf) as (d' & Hd' & ->).
      * unfold stale. rewrite Hd, Hm. intros [?|?]; done.
      * congruence.
    + destruct Hdec as [Hs|Hns].
      * rewrite (get_df_stale self w f Hf Hs).
        split; [done|]. intros _.
        by destruct (App._read_excel self w).1.
      * destruct (get_df_fresh self w f Hf Hns) as (d & _ & ->). simpl.
        split; [lia|done].
    + destruct Hdec as [Hs|Hns].
      * rewrite (get_df_stale self w f Hf Hs).
        split; [|done]. intros Heq. exfalso.
        destruct (App._read_excel self w).1; simpl in Heq; lia.
      * by destruct (get_df_fresh self w f Hf Hns) as (d & _ & ->).
    + intros d Hs Hr. rewrite (get_df_stale self w f Hf Hs). by rewrite Hr.
  - assert (Decision (loader_stale lself lf)) as Hdec
      by (unfold loader_stale; apply _).
    split; [|split; [|split]].
    + intros d Hd Hm.
      destruct (loader_get_df_fresh _load lself lw lf Hlf) as (d' & Hd' & ->).
      * unfold loader_stale. rewrite Hd, Hm. intros [?|[?|?]]; done.
      * congruence.
    + destruct Hdec as [Hs|Hns].
      * rewrite (loader_get_df_stale _load lself lw lf Hlf Hs).
        split; [done|]. intros _. by destruct (_load lself lw).
      * destruct (loader_get_df_fresh _load lself lw lf Hlf Hns)
          as (d & _ & ->). simpl.
        split; [lia|done].
    + destruct Hdec as [Hs|Hns].
      * rewrite (loader_get_df_stale _load lself lw lf Hlf Hs).
        split; [|done]. intros Heq. exfalso.
        destruct (_load lself lw); simpl in Heq; lia.
      * by destruct (loader_get_df_fresh _load lself lw lf Hlf Hns)
          as (d & _ & ->).
    + intros d Hs Hr.
      rewrite (loader_get_df_stale _load lself lw lf Hlf Hs). by rewrite Hr.
Qed.

(** The first call on a new cache reads the sheet; a second call with
    the file unchanged returns the same rows and the count of parser
    calls stays at one. *)
Lemma get_df_reloads_exactly_when_stale_witness :
  let first := App.get_df (H := AsciiLib.lib)
                 (App.init "macro_data.xlsx" "main") usd_world in
  let second := App.get_df (H := AsciiLib.lib) first.1.2 first.2 in
  parser_calls first.2 = 1%nat ∧
  second.1.1 = first.1.1 ∧
  parser_calls second.2 = 1%nat.
Proof.
  pose (c0 := App.init "macro_data.xlsx" "main").
  pose (l0 := DataLoader.mkCache "macro_data.xlsx" "Date" None None None).
  pose (ld := λ (_ : DataLoader.DataCache) (_ : World), Ok usd_sheet).
  assert (files usd_world !! App.path c0 = Some usd_book) as Hf
    by (vm_compute; reflexivity).
  assert (files usd_world !! DataLoader.path l0 = Some usd_book) as Hlf
    by (vm_compute; reflexivity).
  destruct (get_df_reloads_exactly_when_stale (H := AsciiLib.lib)
              c0 usd_world usd_book ld l0 usd_world usd_book Hf Hlf)
    as [(_ & Hcall & _ & _) _].
  intros first second.
  assert (parser_calls first.2 = 1%nat) as H1.
  { apply Hcall. by left. }
  split; [exact H1|].
  subst second first c0. vm_compute. split; reflexivity.
Defined.

(** C10: when [get_df] has to read the file again and the reading
    raises, the exception is the result and the cache is exactly the
    cache before the call, dataset and modification time alike; the next
    call, the file being the same, calls the parser again. *)
Theorem failed_reload_leaves_cache `{PyLib}
    (self : App.DataCache) (w : World) (f : File) (e : Exn) :
  files w !! App.path self = Some f →
  stale self f →
  (App._read_excel self w).1 = Raise e →
  App.get_df self w = (Raise e, self, count_call w) ∧
  App.get_df self (count_call w)
    = (Raise e, self, count_call (count_call w)).
Proof.
  intros Hf Hs Hr. split.
  - rewrite (get_df_stale self w f Hf Hs). by rewrite Hr.
  - rewrite (get_df_stale self (count_call w) f Hf Hs).
    rewrite <- (read_excel_files self w (count_call w) eq_refl).
    by rewrite Hr.
Qed.

Lemma failed_reload_leaves_cache_witness :
  let c0 := App.init "macro_data.xlsx" "main" in
  App.get_df (H := AsciiLib.lib) c0 world_without_main
    = (Raise (ValueError "Worksheet not found"), c0,
       count_call world_without_main) ∧
  App.get_df (H := AsciiLib.lib) c0 (count_call world_without_main)
    = (Raise (ValueError "Worksheet not found"), c0,
       count_call (count_call world_without_main)).
Proof.
  intros c0.
  apply (failed_reload_leaves_cache (H := AsciiLib.lib) c0
           world_without_main book_without_main).
  - vm_compute. reflexivity.
  - by left.
  - vm_compute. reflexivity.
Defined.

(** ** Normalisation of the frequency and method codes *)

Lemma freq_codes_spec (key : string) :
  default "M" (freq_codes !! key) = freq_of_code key.
Proof.
  unfold freq_codes, freq_of_code. rewrite !list_to_map_cons, list_to_map_nil.
  simpl.
  destruct (decide (key = "M")) as [->|?]; [by rewrite lookup_insert_eq|].
  rewrite lookup_insert_ne by done.
  destruct (decide (key = "Q")) as [->|?]; [by rewrite lookup_insert_eq|].
  rewrite lookup_insert_ne by done.
  destruct (decide (key = "A")) as [->|?].
  { rewrite lookup_insert_eq. by rewrite decide_True by (by left). }
  rewrite lookup_insert_ne by done.
  destruct (decide (key = "A-DEC")) as [->|?].
  { rewrite lookup_insert_eq. by rewrite decide_True by (by right). }
  rewrite lookup_insert_ne by done. rewrite lookup_empty.
  by rewrite decide_False by (intros [?|?]; done).
Qed.

Lemma method_codes_spec (key : string) :
  default "avg" (method_codes !! key) = method_of_code key.
Proof.
  unfold method_codes, method_of_code.
  rewrite !list_to_map_cons, list_to_map_nil. simpl.
  destruct (decide (key = "avg")) as [->|?]; [by rewrite lookup_insert_eq|].
  rewrite lookup_insert_ne by done.
  destruct (decide (key = "average")) as [->|?]; [by rewrite lookup_insert_eq|].
  rewrite lookup_insert_ne by done.
  destruct (decide (key = "mean")) as [->|?]; [by rewrite lookup_insert_eq|].
  rewrite lookup_insert_ne by done.
  rewrite (decide_False (P := key = "avg" ∨ key = "average" ∨ key = "mean"))
    by (intros [?|[?|?]]; done).
  destruct (decide (key = "eop")) as [->|?]; [by rewrite lookup_insert_eq|].
  rewrite lookup_insert_ne by done.
  destruct (decide (key = "end")) as [->|?]; [by rewrite lookup_insert_eq|].
  rewrite lookup_insert_ne by done.
  destruct (decide (key = "last")) as [->|?]; [by rewrite lookup_insert_eq|].
  rewrite lookup_insert_ne by done. rewrite lookup_empty.
  by rewrite decide_False by (intros [?|[?|?]]; done).
Qed.

Lemma freq_of_code_range (key : string) :
  freq_of_code key ∈ ["M"; "Q"; "A"].
Proof.
  unfold freq_of_code. repeat destruct (decide _); repeat constructor.
Qed.

Lemma method_of_code_range (key : string) :
  method_of_code key ∈ ["avg"; "eop"].
Proof.
  unfold method_of_code. repeat destruct (decide _); repeat constructor.
Qed.

Lemma mk_row_codes `{PyLib} (cols : list string) (row : list Cell) (r : Row) :
  mk_row cols row = Some r →
  Freq r = freq_of_code
             (str_strip (str_upper (astype_str (cell cols "Freq" row)))) ∧
  Method r = method_of_code
               (str_strip (str_lower (astype_str (cell cols "Method" row)))).
Proof.
  unfold mk_row. intros Hr.
  destruct (cell_to_datetime (cell cols "Date" row)) as [d|]; [|done].
  simpl in Hr. injection Hr as <-. simpl. unfold norm_freq, norm_method.
  by rewrite freq_codes_spec, method_codes_spec.
Qed.

Lemma normalise_rows `{PyLib} (sheet : string) (raw : RawFrame) (df : DataFrame) :
  normalise sheet raw = Ok df →
  ∃ rows, mapM (mk_row (std_col <$> columns raw)) (body raw) = Some rows ∧
          df ≡ₚ rows.
Proof.
  unfold normalise. intros Hn.
  destruct (list_find _ required) as [[i r]|]; [done|].
  destruct (mapM _ (body raw)) as [rows|]; [|done].
  injection Hn as <-. exists rows. split; [done|].
  apply merge_sort_Permutation.
Qed.



(** ** The calendar *)

Lemma date_le_refl (d : date) : date_le d d.
Proof. unfold date_le. lia. Qed.

Lemma date_le_trans (a b c : date) : date_le a b → date_le b c → date_le a c.
Proof. unfold date_le. lia. Qed.

Lemma date_le_total (a b : date) : date_le a b ∨ date_le b a.
Proof. unfold date_le. lia. Qed.

(** On dates whose month is between 1 and 12 the chronological order is
    the order of the (year, month, day) triples. *)
Lemma date_le_lex (a b : date) :
  1 ≤ month a ≤ 12 → 1 ≤ month b ≤ 12 → (date_le a b ↔ date_lex_le a b).
Proof. unfold date_le, date_lex_le, month_index. lia. Qed.

Global Instance index_le_total : Total index_le.
Proof. intros a b. apply date_le_total. Qed.
Global Instance index_le_trans : Transitive index_le.
Proof. intros a b c. apply date_le_trans. Qed.
Global Instance index_le_refl : Reflexive index_le.
Proof. intros a. apply date_le_refl. Qed.

Lemma months_per_pos (o : Offset) : 0 < months_per o.
Proof. by destruct o. Qed.

Lemma period_of_mono (o : Offset) (a b : date) :
  date_le a b → period_of o a ≤ period_of o b.
Proof.
  intros Hle. unfold period_of.
  apply Z.div_le_mono; [apply months_per_pos|].
  unfold date_le in Hle. lia.
Qed.

Lemma month_index_of_date (mi : Z) (day_of : Z → Z → Z) :
  month_index (date_of_month_index mi day_of) = mi.
Proof.
  unfold month_index, date_of_month_index. simpl.
  pose proof (Z.div_mod mi 12). lia.
Qed.

Lemma year_month_of_index (d : date) :
  1 ≤ month d ≤ 12 →
  month_index d / 12 = year d ∧ month_index d mod 12 + 1 = month d.
Proof.
  intros Hm. unfold month_index.
  assert (12 * year d + (month d - 1) = (month d - 1) + year d * 12) as ->
    by lia.
  rewrite Z.div_add, Z.mod_add by lia.
  rewrite Z.div_small, Z.mod_small by lia. lia.
Qed.

(** A valid date lies within the calendar bounds of a period exactly
    when it is counted in that period. *)
Lemma in_period_iff (o : Offset) (p : Z) (d : date) :
  valid_date d → (in_period o p d ↔ period_of o d = p).
Proof.
  intros [Hm Hd].
  destruct (year_month_of_index d Hm) as [Hy Hmo].
  unfold in_period, date_le, period_start, period_end.
  rewrite !month_index_of_date. unfold period_of.
  pose proof (months_per_pos o) as Hk.
  assert (month_index d / months_per o = p ↔
          p * months_per o ≤ month_index d ≤ (p + 1) * months_per o - 1)
    as ->.
  { split.
    - intros <-. pose proof (Z.div_mod (month_index d) (months_per o)).
      pose proof (Z.mod_pos_bound (month_index d) (months_per o) Hk). nia.
    - intros Hb. symmetry. apply (Z.div_unique _ _ _ (month_index d - p * months_per o)); lia. }
  unfold date_of_month_index. simpl.
  split.
  - intros [H1 H2]. lia.
  - intros [H1 H2]. split; [lia|].
    destruct (decide (month_index d = (p + 1) * months_per o - 1)) as [Heq|?];
      [|lia].
    right. split; [done|]. rewrite <- Heq, Hy, Hmo. lia.
Qed.

(** ** Lists: filters on sorted lists *)

Lemma filter_all {A} (P : A → Prop) `{!∀ x, Decision (P x)} (l : list A) :
  Forall P l → filter P l = l.
Proof.
  induction 1 as [|x l Hx _ IH]; [done|].
  by rewrite filter_cons_True, IH.
Qed.

Lemma filter_none {A} (P : A → Prop) `{!∀ x, Decision (P x)} (l : list A) :
  Forall (λ x, ¬ P x) l → filter P l = [].
Proof.
  induction 1 as [|x l Hx _ IH]; [done|].
  by rewrite filter_cons_False.
Qed.

Lemma filter_iff_on {A} (P Q : A → Prop)
    `{!∀ x, Decision (P x), !∀ x, Decision (Q x)} (l : list A) :
  Forall (λ x, P x ↔ Q x) l → filter P l = filter Q l.
Proof.
  induction 1 as [|x l Hx _ IH]; [done|].
  rewrite !filter_cons, IH. apply decide_ext. exact Hx.
Qed.

Lemma filter_fmap {A B} (f : A → B) (P : B → Prop)
    `{!∀ y, Decision (P y)} (l : list A) :
  filter P (f <$> l) = f <$> filter (λ x, P (f x)) l.
Proof.
  induction l as [|x l IH]; [done|].
  rewrite fmap_cons, !filter_cons, IH. by destruct (decide (P (f x))).
Qed.

Lemma StronglySorted_filter {A} (R : relation A) (P : A → Prop)
    `{!∀ x, Decision (P x)} (l : list A) :
  StronglySorted R l → StronglySorted R (filter P l).
Proof.
  induction 1 as [|x l Hl IH Hx]; [constructor|].
  rewrite filter_cons. destruct (decide (P x)); [|done].
  constructor; [done|].
  rewrite Forall_forall in Hx. apply Forall_forall.
  intros y Hy. apply Hx. apply list_elem_of_filter in Hy. tauto.
Qed.

Lemma sort_index_sorted (s : Series) : StronglySorted index_le (sort_index s).
Proof. apply StronglySorted_merge_sort; apply _. Qed.

Lemma sort_index_perm (s : Series) : sort_index s ≡ₚ s.
Proof. apply merge_sort_Permutation. Qed.

(** ** The bins of a resampling *)

Lemma split_bin_sorted (o : Offset) (p : Z) (s : Series) :
  StronglySorted index_le s →
  split_bin o p s
    = (filter (λ e, period_of o e.1 ≤ p) s,
       filter (λ e, ¬ period_of o e.1 ≤ p) s).
Proof.
  induction 1 as [|e s' Hs IH Hall]; [done|]. simpl.
  rewrite !filter_cons.
  destruct (decide (period_of o e.1 ≤ p)) as [Hle|Hgt].
  - rewrite IH. simpl. by rewrite decide_False by tauto.
  - assert (Forall (λ x, ¬ period_of o x.1 ≤ p) s') as Hlate.
    { eapply Forall_impl; [exact Hall|]. intros x Hx.
      pose proof (period_of_mono o _ _ Hx). lia. }
    rewrite (filter_none _ s' Hlate).
    rewrite (filter_all (λ x, ¬ period_of o x.1 ≤ p) s' Hlate).
    by rewrite decide_True by done.
Qed.

Lemma bins_length (o : Offset) agg (n : nat) (p : Z) (s : Series) :
  length (bins o agg n p s) = n.
Proof.
  revert p s. induction n as [|n IH]; intros p s; [done|].
  simpl. by rewrite IH.
Qed.

(** On a sorted series that starts at period [p] or later, bin [i]
    holds the entries of period [p + i], all of them and no other. *)
Lemma bins_lookup (o : Offset) agg (n : nat) :
  ∀ (p : Z) (s : Series) (i : nat),
    StronglySorted index_le s →
    Forall (λ e, p ≤ period_of o e.1) s →
    (i < n)%nat →
    bins o agg n p s !! i
      = Some (period_end o (p + Z.of_nat i),
              agg ((filter (λ e, period_of o e.1 = p + Z.of_nat i) s).*2)).
Proof.
  induction n as [|n IH]; intros p s i Hs Hlow Hi; [lia|].
  simpl. rewrite (split_bin_sorted o p s Hs). simpl.
  destruct i as [|i].
  - simpl. rewrite Z.add_0_r. do 4 f_equal.
    apply filter_iff_on. eapply Forall_impl; [exact Hlow|].
    simpl. intros x Hx. lia.
  - rewrite lookup_cons. rewrite IH.
    + replace (p + 1 + Z.of_nat i) with (p + Z.of_nat (S i)) by lia.
      do 4 f_equal. rewrite list_filter_filter.
      apply list_filter_iff. intros x. lia.
    + by apply StronglySorted_filter.
    + apply Forall_forall. intros x Hx.
      apply list_elem_of_filter in Hx. lia.
    + lia.
Qed.

Lemma resample_lookup (o : Offset) agg (s : Series) :
  ∃ p0, ∀ i lbl v,
    resample o agg s !! i = Some (lbl, v) →
    lbl = period_end o (p0 + Z.of_nat i) ∧
    v = agg ((filter (λ e, period_of o e.1 = p0 + Z.of_nat i)
                (sort_index s)).*2).
Proof.
  unfold resample.
  pose proof (sort_index_sorted s) as Hs.
  destruct (head (sort_index s)) as [first|] eqn:Hhead;
    [|by exists 0; intros i lbl v ?].
  destruct (last (sort_index s)) as [final|] eqn:Hlast;
    [|by exists 0; intros i lbl v ?].
  exists (period_of o first.1). intros i lbl v Hi.
  assert (i < Z.to_nat (period_of o final.1 - period_of o first.1 + 1))%nat
    as Hlt.
  { apply lookup_lt_Some in Hi. by rewrite bins_length in Hi. }
  rewrite bins_lookup in Hi; [by injection Hi as <- <-|done| |done].
  apply head_Some in Hhead as [rest Heq]. rewrite Heq in Hs |- *.
  apply StronglySorted_cons in Hs as [Hall _].
  constructor; [lia|].
  eapply Forall_impl; [exact Hall|]. intros x Hx.
  by apply period_of_mono.
Qed.

Lemma resample_covers (o : Offset) agg (s : Series) (e : date * option Q) :
  e ∈ s →
  ∃ i v, resample o agg s !! i = Some (period_end o (period_of o e.1), v).
Proof.
  intros He. rewrite <- (sort_index_perm s) in He.
  unfold resample. pose proof (sort_index_sorted s) as Hs.
  destruct (head (sort_index s)) as [first|] eqn:Hhead.
  2: { apply head_None in Hhead. rewrite Hhead in He.
       by apply elem_of_nil in He. }
  destruct (last (sort_index s)) as [final|] eqn:Hlast.
  2: { apply last_None in Hlast. rewrite Hlast in He.
       by apply elem_of_nil in He. }
  assert (Forall (λ x, period_of o first.1 ≤ period_of o x.1) (sort_index s))
    as Hlow.
  { apply head_Some in Hhead as [rest Heq]. rewrite Heq in Hs |- *.
    apply StronglySorted_cons in Hs as [Hall _].
    constructor; [lia|].
    eapply Forall_impl; [exact Hall|]. intros x Hx.
    by apply period_of_mono. }
  assert (period_of o e.1 ≤ period_of o final.1) as Hhigh.
  { apply last_Some in Hlast as [front Heq]. rewrite Heq in Hs, He.
    apply elem_of_app in He as [He|He].
    - apply period_of_mono.
      apply (StronglySorted_app_1_elem_of _ _ _ _ _ Hs He). by left.
    - apply list_elem_of_singleton in He as ->. lia. }
  assert (period_of o first.1 ≤ period_of o e.1) as Hge.
  { rewrite Forall_forall in Hlow. by apply Hlow. }
  exists (Z.to_nat (period_of o e.1 - period_of o first.1)).
  eexists. rewrite bins_lookup; [|done|done|lia].
  do 3 f_equal. lia.
Qed.

(** ** The two aggregations *)





Lemma group_last_snoc (vs : list (option Q)) (v : option Q) :
  group_last (vs ++ [v]) = last_step (group_last vs) v.
Proof. unfold group_last. by rewrite fold_left_app. Qed.

(** [GroupBy.last] on a group in index order: a value that is not
    missing, at an entry that no other such entry comes after; NaN when
    every entry is missing. *)
Lemma group_last_sorted (l : Series) :
  StronglySorted index_le l →
  match group_last (l.*2) with
  | Some x =>
      ∃ e, e ∈ l ∧ e.2 = Some x ∧
           ∀ e', e' ∈ l → e'.2 ≠ None → index_le e' e
  | None => ∀ e, e ∈ l → e.2 = None
  end.
Proof.
  induction l as [|e l IH] using rev_ind; intros Hs.
  - simpl. intros e He. by apply elem_of_nil in He.
  - rewrite fmap_app. simpl. rewrite group_last_snoc.
    apply StronglySorted_app in Hs as (Hle & Hl & _).
    specialize (IH Hl).
    destruct e as [d [x|]]; simpl.
    + exists (d, Some x). split; [apply elem_of_app; right; by left|].
      split; [done|]. intros e' He' _.
      apply elem_of_app in He' as [He'|He'].
      * apply Hle; [done|by left].
      * apply list_elem_of_singleton in He' as ->. apply date_le_refl.
    + destruct (group_last (l.*2)) as [x|].
      * destruct IH as (e & He & Hx & Hmax). exists e.
        split; [apply elem_of_app; by left|]. split; [done|].
        intros e' He' Hne. apply elem_of_app in He' as [He'|He'].
        -- by apply Hmax.
        -- apply list_elem_of_singleton in He' as ->. done.
      * intros e He. apply elem_of_app in He as [He|He].
        -- by apply IH.
        -- by apply list_elem_of_singleton in He as ->.
Qed.

(** ** From the bins to the rows of the dataset *)


(** The entries of a bin are, up to their order, the rows of the alias
    dated within the calendar bounds of the period. *)
Lemma bin_rows (o : Offset) (p : Z) (df : DataFrame) (alias : string) :
  Forall (λ r, valid_date (Date r)) df →
  filter (λ e, period_of o e.1 = p)
         (sort_index (series_of (rows_of df alias)))
    ≡ₚ (λ r, (Date r, Value r)) <$> period_rows o p df alias.
Proof.
  intros Hvalid. unfold series_of. rewrite !sort_index_perm.
  rewrite filter_fmap. unfold rows_of, period_rows.
  rewrite list_filter_filter.
  rewrite (filter_iff_on
             (λ r, period_of o (Date r, Value r).1 = p ∧ Alias r = Some alias)
             (λ r, Alias r = Some alias ∧ in_period o p (Date r)) df);
    [done|].
  eapply Forall_impl; [exact Hvalid|]. intros r Hr. simpl.
  rewrite (in_period_iff o p _ Hr). tauto.
Qed.

Lemma series_before_filter_resampled (df : DataFrame) (alias fv : string)
    (r0 : Row) (sub : DataFrame) :
  rows_of df alias = r0 :: sub →
  freq_use_of alias fv (Freq r0) ≠ Freq r0 →
  series_before_filter df alias fv
    = _resample_series (series_of (rows_of df alias))
        (freq_use_of alias fv (Freq r0)) (Method r0).
Proof.
  intros Hsub Hne. unfold series_before_filter. rewrite Hsub.
  by rewrite decide_True by done.
Qed.

Lemma build_unfiltered `{PyLib} (df : DataFrame) (alias fv : string) :
  (_build_table df alias fv None None).1.1.2
    = (λ e, [_format_date e.1; _round_val e.2])
        <$> series_before_filter df alias fv ∧
  (_build_series df alias fv None None).1.1
    = (λ e, iso_date e.1) <$> series_before_filter df alias fv ∧
  (_build_series df alias fv None None).1.2
    = (series_before_filter df alias fv).*2.
Proof.
  destruct (build_table_rows df alias fv None None) as [Hr _].
  destruct (build_series_xy df alias fv None None) as [Hx Hy].
  done.
Qed.

Lemma resampled_covers_rows (df : DataFrame) (alias : string) (o : Offset)
    agg (r : Row) :
  r ∈ df → Alias r = Some alias →
  ∃ i v, resample o agg (series_of (rows_of df alias)) !! i
           = Some (period_end o (period_of o (Date r)), v).
Proof.
  intros Hr Ha.
  apply (resample_covers o agg _ (Date r, Value r)).
  unfold series_of. rewrite sort_index_perm.
  apply list_elem_of_fmap. exists r. split; [done|].
  apply rows_of_alias. done.
Qed.



(** C2: for an alias whose method is the end of period and whose
    frequency in use differs from the native one, the series after
    resampling has one entry per consecutive period, labelled with the
    last day of the period; its value is the value of a row of the alias
    dated within the period whose value is not missing and after which,
    in date order, no other such row comes, and it is missing when the
    period has no row with a value; every row of the alias falls in one
    of the periods; the table and the series are the formatting of
    these entries. *)
Theorem resampled_end_of_period_is_last `{PyLib} (df : DataFrame)
    (alias fv : string) (r0 : Row) (sub : DataFrame) :
  rows_of df alias = r0 :: sub →
  Method r0 = "eop" →
  freq_use_of alias fv (Freq r0) ≠ Freq r0 →
  Forall (λ r, valid_date (Date r)) df →
  let o := default MonthEnd (FREQ_RULE !! freq_use_of alias fv (Freq r0)) in
  let s := series_before_filter df alias fv in
  (∃ p0, ∀ (i : nat) lbl v, s !! i = Some (lbl, v) →
     lbl = period_end o (p0 + Z.of_nat i) ∧
     match v with
     | Some x =>
         ∃ r, r ∈ period_rows o (p0 + Z.of_nat i) df alias ∧
              Value r = Some x ∧
              ∀ r', r' ∈ period_rows o (p0 + Z.of_nat i) df alias →
                    Value r' ≠ None → date_le (Date r') (Date r)
     | None =>
         ∀ r, r ∈ period_rows o (p0 + Z.of_nat i) df alias → Value r = None
     end) ∧
  (∀ r, r ∈ df → Alias r = Some alias →
     ∃ i v, s !! i = Some (period_end o (period_of o (Date r)), v)) ∧
  (_build_table df alias fv None None).1.1.2
    = (λ e, [_format_date e.1; _round_val e.2]) <$> s ∧
  (_build_series df alias fv None None).1.2 = s.*2.
Proof.
  intros Hsub Hm Hne Hvalid o s.
  assert (s = resample o group_last (series_of (rows_of df alias))) as Hs.
  { subst s. rewrite (series_before_filter_resampled _ _ _ _ _ Hsub Hne).
    unfold _resample_series. rewrite Hm. by rewrite decide_True by done. }
  destruct (build_unfiltered df alias fv) as (Ht & _ & Hy).
  split; [|split; [|split]]; [| |done|done].
  - destruct (resample_lookup o group_last (series_of (rows_of df alias)))
      as [p0 Hp0].
    exists p0. intros i lbl v Hi. rewrite Hs in Hi.
    destruct (Hp0 i lbl v Hi) as [-> Hv]. split; [done|].
    pose proof (bin_rows o (p0 + Z.of_nat i) df alias Hvalid) as Hperm.
    pose proof (group_last_sorted
                  (filter (λ e, period_of o e.1 = p0 + Z.of_nat i)
                     (sort_index (series_of (rows_of df alias))))
                  (StronglySorted_filter _ _ _ (sort_index_sorted _)))
      as Hlast.
    rewrite <- Hv in Hlast. destruct v as [x|].
    + destruct Hlast as (e & He & Hx & Hmax).
      rewrite Hperm in He. apply list_elem_of_fmap in He as (r & -> & Hr).
      exists r. split; [done|]. split; [done|].
      intros r' Hr' Hne'.
      apply (Hmax (Date r', Value r')); [|done].
      rewrite Hperm. apply list_elem_of_fmap. by exists r'.
    + intros r Hr.
      apply (Hlast (Date r, Value r)).
      rewrite Hperm. apply list_elem_of_fmap. by exists r.
  - intros r Hr Ha. rewrite Hs. by apply resampled_covers_rows.
Qed.

(** By quarter, the first quarter of 2024 takes the value of February
    16, the row of March 22 being missing, and the second quarter the
    value of April 26. *)
Lemma resampled_end_of_period_is_last_witness :
  series_before_filter key_rate "Ключевая ставка" "Q"
    = [(mkdate 2024 3 31, Some (inject_Z 15));
       (mkdate 2024 6 30, Some (inject_Z 14))] ∧
  ∃ p0 r, r ∈ period_rows QuarterEnd (p0 + 0) key_rate "Ключевая ставка" ∧
          Value r = Some (inject_Z 15).
Proof.
  assert (series_before_filter key_rate "Ключевая ставка" "Q"
            = [(mkdate 2024 3 31, Some (inject_Z 15));
               (mkdate 2024 6 30, Some (inject_Z 14))]) as Hs
    by (vm_compute; reflexivity).
  split; [exact Hs|].
  destruct (resampled_end_of_period_is_last (H := AsciiLib.lib)
              key_rate "Ключевая ставка" "Q"
              (rate (mkdate 2024 1 10) (Some (inject_Z 16)))
              [rate (mkdate 2024 2 16) (Some (inject_Z 15));
               rate (mkdate 2024 3 22) None;
               rate (mkdate 2024 4 26) (Some (inject_Z 14))])
    as ((p0 & Hp0) & _).
  - vm_compute. reflexivity.
  - reflexivity.
  - vm_compute. discriminate.
  - repeat constructor; vm_compute; discriminate.
  - exists p0.
    destruct (Hp0 0%nat (mkdate 2024 3 31) (Some (inject_Z 15)))
      as (_ & r & Hr & Hx & _).
    + rewrite Hs. reflexivity.
    + exists r.
      replace (default MonthEnd
                 (FREQ_RULE !! freq_use_of "Ключевая ставка" "Q"
                    (Freq (rate (mkdate 2024 1 10) (Some (inject_Z 16))))))
        with QuarterEnd in * by (vm_compute; reflexivity).
      done.
Defined.

(** * Further properties of the resampler *)

Lemma period_end_index (o : Offset) (p : Z) :
  month_index (period_end o p) = (p + 1) * months_per o - 1.
Proof. unfold period_end. apply month_index_of_date. Qed.

Lemma days_in_month_bounds (y m : Z) : 28 ≤ days_in_month y m ≤ 31.
Proof.
  unfold days_in_month.
  destruct (m =? 2); [destruct (is_leap y); lia|].
  destruct ((m =? 4) || (m =? 6) || (m =? 9) || (m =? 11)); lia.
Qed.

Lemma period_end_valid (o : Offset) (p : Z) : valid_date (period_end o p).
Proof.
  unfold valid_date, period_end, date_of_month_index. simpl.
  pose proof (Z.mod_pos_bound ((p + 1) * months_per o - 1) 12).
  pose proof (days_in_month_bounds (((p + 1) * months_per o - 1) / 12)
                (((p + 1) * months_per o - 1) mod 12 + 1)).
  lia.
Qed.

Lemma period_of_period_end (o : Offset) (p : Z) :
  period_of o (period_end o p) = p.
Proof.
  unfold period_of. rewrite period_end_index.
  pose proof (months_per_pos o).
  symmetry. apply (Z.div_unique _ _ _ (months_per o - 1)); lia.
Qed.

Lemma period_end_strict (o : Offset) (p q : Z) :
  p < q → ¬ date_le (period_end o q) (period_end o p).
Proof.
  intros Hpq. unfold date_le. rewrite !period_end_index.
  pose proof (months_per_pos o). nia.
Qed.

Lemma resample_nonempty (o : Offset) agg (s : Series) :
  s ≠ [] → resample o agg s ≠ [].
Proof.
  intros Hne. destruct s as [|e s]; [done|].
  destruct (resample_covers o agg (e :: s) e) as (i & v & Hi); [by left|].
  intros Hnil. by rewrite Hnil in Hi.
Qed.

Lemma resample_empty (o : Offset) agg : resample o agg [] = [].
Proof. done. Qed.

Lemma default_rule_cases (freq : string) :
  default MonthEnd (FREQ_RULE !! freq)
    = if decide (freq = "Q") then QuarterEnd
      else if decide (freq = "A") then YearEndDec else MonthEnd.
Proof.
  unfold FREQ_RULE.
  destruct (decide (freq = "M")) as [->|?]; [by rewrite lookup_insert_eq|].
  rewrite lookup_insert_ne by done.
  destruct (decide (freq = "Q")) as [->|?]; [by rewrite lookup_insert_eq|].
  rewrite lookup_insert_ne by done.
  destruct (decide (freq = "A")) as [->|?]; [by rewrite lookup_insert_eq|].
  rewrite lookup_insert_ne by done. by rewrite lookup_empty.
Qed.

(** X1: whatever the series, the frequency and the method, the result
    of [_resample_series] is in strictly increasing date order, without
    two entries of one date; each of its dates is a valid calendar date,
    the last day of the period it stands for; and the result is empty
    exactly when the series is. *)
Theorem resampled_dates_strictly_increase (s : Series) (freq method : string) :
  let o := default MonthEnd (FREQ_RULE !! freq) in
  let out := _resample_series s freq method in
  (∀ (i j : nat) a b, (i < j)%nat → out !! i = Some a → out !! j = Some b →
     date_le a.1 b.1 ∧ ¬ date_le b.1 a.1) ∧
  (∀ e, e ∈ out →
     valid_date e.1 ∧ e.1 = period_end o (period_of o e.1)) ∧
  (out = [] ↔ s = []).
Proof.
  intros o out.
  assert (∃ agg, out = resample o agg s) as [agg Hout].
  { subst out. unfold _resample_series. case_decide; eauto. }
  destruct (resample_lookup o agg s) as [p0 Hp0].
  split; [|split].
  - intros i j [la va] [lb vb] Hij Hi Hj. rewrite Hout in Hi, Hj.
    destruct (Hp0 _ _ _ Hi) as [-> _]. destruct (Hp0 _ _ _ Hj) as [-> _].
    simpl. split.
    + unfold date_le. rewrite !period_end_index.
      pose proof (months_per_pos o). left. nia.
    + apply period_end_strict. lia.
  - intros [l v] He. rewrite Hout in He.
    apply list_elem_of_lookup in He as [i Hi].
    destruct (Hp0 _ _ _ Hi) as [-> _]. simpl.
    split; [apply period_end_valid|by rewrite period_of_period_end].
  - rewrite Hout. split.
    + intros Hnil. destruct (decide (s = [])) as [|Hne]; [done|].
      by destruct (resample_nonempty o agg s Hne).
    + by intros ->.
Qed.

Lemma freq_use_unlocked (alias fv native : string) :
  NATIVE_FREQ_LOCK !! alias = None →
  freq_use_of alias fv native = if decide (fv = "AUTO") then native else fv.
Proof. intros Hl. unfold freq_use_of. by rewrite Hl. Qed.

(** X2: for an alias that is not locked and whose native frequency is
    one of M, Q, A, a view frequency that is none of AUTO, M, Q, A makes
    the builders resample by calendar month, also when the native
    frequency is monthly already, and the series reports the caller's
    word as the frequency used. *)
Theorem unknown_view_frequency_resamples_by_month `{PyLib} (df : DataFrame)
    (alias fv : string) (dfrom dto : option string)
    (r0 : Row) (sub : DataFrame) :
  NATIVE_FREQ_LOCK !! alias = None →
  rows_of df alias = r0 :: sub →
  Freq r0 ∈ ["M"; "Q"; "A"] →
  fv ∉ ["AUTO"; "M"; "Q"; "A"] →
  let monthly := _resample_series (series_of (r0 :: sub)) "M" (Method r0) in
  series_before_filter df alias fv = monthly ∧
  (_build_table df alias fv dfrom dto).1.1.2
    = (λ e, [_format_date e.1; _round_val e.2])
        <$> _apply_period_filter monthly dfrom dto ∧
  (_build_series df alias fv dfrom dto).1.2
    = (_apply_period_filter monthly dfrom dto).*2 ∧
  (_build_series df alias fv dfrom dto).2 !! "freq_used" = Some fv.
Proof.
  intros Hl Hsub Hnative Hfv monthly.
  assert (fv ≠ "AUTO" ∧ fv ≠ "M" ∧ fv ≠ "Q" ∧ fv ≠ "A") as (H1 & H2 & H3 & H4).
  { repeat split; intros ->; apply Hfv; repeat constructor. }
  assert (freq_use_of alias fv (Freq r0) = fv) as Huse.
  { rewrite (freq_use_unlocked _ _ _ Hl). by rewrite decide_False. }
  assert (fv ≠ Freq r0) as Hne.
  { intros ->. apply Hfv. by right. }
  assert (series_before_filter df alias fv = monthly) as Hs.
  { rewrite (series_before_filter_resampled _ _ _ _ _ Hsub) by (by rewrite Huse).
    rewrite Huse, Hsub. subst monthly. unfold _resample_series.
    rewrite (default_rule_cases fv), (default_rule_cases "M").
    rewrite (decide_False (P := fv = "Q")) by done.
    by rewrite (decide_False (P := fv = "A")) by done. }
  destruct (build_table_rows df alias fv dfrom dto) as [Hr _].
  destruct (build_series_xy df alias fv dfrom dto) as [_ Hy].
  rewrite Hs in Hr, Hy. split; [done|]. split; [done|]. split; [done|].
  unfold _build_series. rewrite Hsub, Huse.
  destruct (_alias_unit_method df alias) as [[name unit] method]. simpl.
  rewrite lookup_insert_ne by done. by rewrite lookup_insert_eq.
Qed.

(** Asked for "W", the monthly series comes back dated at the ends of
    the months; asked for "M" it keeps its own dates. *)
Lemma unknown_view_frequency_resamples_by_month_witness :
  (_build_table (H := AsciiLib.lib) usd_rub "USD/RUB" "W" None None).1.1.2
    = [["31.01.2024"; "90.0"]; ["29.02.2024"; "92.0"]] ∧
  (_build_table (H := AsciiLib.lib) usd_rub "USD/RUB" "M" None None).1.1.2
    = [["15.01.2024"; "90.0"]; ["15.02.2024"; "92.0"]].
Proof.
  destruct (unknown_view_frequency_resamples_by_month (H := AsciiLib.lib)
              usd_rub "USD/RUB" "W" None None (usd (mkdate 2024 1 15) 90)
              [usd (mkdate 2024 2 15) 92]) as (_ & Hr & _).
  - vm_compute. reflexivity.
  - vm_compute. reflexivity.
  - by left.
  - intros Hin.
    repeat (apply elem_of_cons in Hin as [Hin|Hin]; [discriminate|]).
    by apply elem_of_nil in Hin.
  - split; [|vm_compute; reflexivity].
    rewrite Hr. vm_compute. reflexivity.
Defined.

(** X3: when the frequency in use is the native one, as with "AUTO" on
    an alias that is not locked, nothing is aggregated: the series
    before the date filter holds the date and value of every row of the
    alias, each once, in date order, and without bounds the table has as
    many rows as the alias has in the dataset. *)
Theorem native_view_keeps_every_row `{PyLib} (df : DataFrame)
    (alias fv : string) (r0 : Row) (sub : DataFrame) :
  rows_of df alias = r0 :: sub →
  freq_use_of alias fv (Freq r0) = Freq r0 →
  series_before_filter df alias fv
    ≡ₚ (λ r, (Date r, Value r)) <$> rows_of df alias ∧
  StronglySorted index_le (series_before_filter df alias fv) ∧
  (_build_table df alias fv None None).1.2 = length (rows_of df alias) ∧
  (NATIVE_FREQ_LOCK !! alias = None →
   freq_use_of alias "AUTO" (Freq r0) = Freq r0).
Proof.
  intros Hsub Huse.
  assert (series_before_filter df alias fv = series_of (rows_of df alias))
    as Hs.
  { unfold series_before_filter. rewrite Hsub.
    by rewrite decide_False by (intros Hne; by apply Hne). }
  split; [|split; [|split]].
  - rewrite Hs. apply sort_index_perm.
  - rewrite Hs. apply sort_index_sorted.
  - destruct (build_table_rows df alias fv None None) as [_ Hn].
    rewrite Hn. simpl. rewrite Hs. unfold series_of.
    by rewrite sort_index_perm, length_fmap.
  - intros Hl. rewrite (freq_use_unlocked _ _ _ Hl). by rewrite decide_True.
Qed.

Lemma native_view_keeps_every_row_witness :
  (_build_table (H := AsciiLib.lib) key_rate "Ключевая ставка" "AUTO"
     None None).1.2 = 4%nat.
Proof.
  destruct (native_view_keeps_every_row (H := AsciiLib.lib) key_rate
              "Ключевая ставка" "AUTO"
              (rate (mkdate 2024 1 10) (Some (inject_Z 16)))
              [rate (mkdate 2024 2 16) (Some (inject_Z 15));
               rate (mkdate 2024 3 22) None;
               rate (mkdate 2024 4 26) (Some (inject_Z 14))])
    as (_ & _ & Hn & _).
  - vm_compute. reflexivity.
  - vm_compute. reflexivity.
  - rewrite Hn. vm_compute. reflexivity.
Defined.

Lemma series_before_filter_nil (df : DataFrame) (alias fv : string) :
  series_before_filter df alias fv = [] ↔ rows_of df alias = [].
Proof.
  unfold series_before_filter.
  destruct (rows_of df alias) as [|r0 sub] eqn:Hsub; [done|].
  split; [|done]. intros Hnil. exfalso.
  assert (series_of (r0 :: sub) ≠ []) as Hne.
  { intros Hs. pose proof (sort_index_perm ((λ r, (Date r, Value r)) <$> r0 :: sub)) as Hp.
    unfold series_of in Hs. rewrite Hs in Hp.
    by apply Permutation_nil_l in Hp. }
  case_decide; [|done].
  unfold _resample_series in Hnil.
  case_decide; by apply resample_nonempty in Hnil.
Qed.

(** X4: without date bounds, and whatever the view frequency, the table
    has no row exactly when the alias has no row in the dataset, and so
    has the series: an alias with data never comes back empty. *)
Theorem empty_result_only_for_unknown_alias `{PyLib} (df : DataFrame)
    (alias fv : string) :
  ((_build_table df alias fv None None).1.2 = 0%nat
     ↔ rows_of df alias = []) ∧
  ((_build_table df alias fv None None).1.1.2 = []
     ↔ rows_of df alias = []) ∧
  ((_build_series df alias fv None None).1.2 = []
     ↔ rows_of df alias = []).
Proof.
  destruct (build_table_rows df alias fv None None) as [Hr Hn].
  destruct (build_series_xy df alias fv None None) as [_ Hy].
  simpl in Hr, Hn, Hy. rewrite Hr, Hn, Hy.
  rewrite <- (series_before_filter_nil df alias fv).
  destruct (series_before_filter df alias fv); split_and!; done.
Qed.

(** X5: for one request the table and the series show the same
    entries: the table has two column headers, each row has two cells,
    the total is the number of rows, x and y have that length too, row
    [i] is the date and value of entry [i] formatted for reading where x
    and y give them for plotting, and both report as native frequency
    what [_native_freq] gives for the alias. *)
Theorem table_and_series_agree `{PyLib} (df : DataFrame)
    (alias fv : string) (dfrom dto : option string) :
  let t := _build_table df alias fv dfrom dto in
  let c := _build_series df alias fv dfrom dto in
  length t.1.1.1 = 2%nat ∧
  Forall (λ row, length row = 2%nat) t.1.1.2 ∧
  t.1.2 = length t.1.1.2 ∧
  length c.1.1 = t.1.2 ∧
  length c.1.2 = t.1.2 ∧
  (∀ (i : nat) row, t.1.1.2 !! i = Some row →
     ∃ d v, row = [_format_date d; _round_val v] ∧
            c.1.1 !! i = Some (iso_date d) ∧ c.1.2 !! i = Some v) ∧
  t.2 = _native_freq df alias ∧
  c.2 !! "native" = Some (_native_freq df alias).
Proof.
  intros t c.
  destruct (build_table_rows df alias fv dfrom dto) as [Hr Hn].
  destruct (build_series_xy df alias fv dfrom dto) as [Hx Hy].
  simpl in Hr, Hn, Hx, Hy.
  fold t in Hr, Hn. fold c in Hx, Hy.
  set (kept := _apply_period_filter (series_before_filter df alias fv)
                 dfrom dto) in *.
  split_and!.
  - subst t. unfold _build_table.
    destruct (rows_of df alias); [done|].
    by destruct (_alias_unit_method df alias) as [[name unit] method].
  - rewrite Hr. apply Forall_fmap, Forall_forall. by intros e _.
  - by rewrite Hn, Hr, length_fmap.
  - by rewrite Hx, Hn, length_fmap.
  - by rewrite Hy, Hn, length_fmap.
  - intros i row Hi. rewrite Hr in Hi.
    apply list_lookup_fmap_Some in Hi as ([d v] & -> & Hi).
    exists d, v. split; [done|].
    rewrite Hx, Hy, !list_lookup_fmap, Hi. done.
  - subst t. unfold _build_table, _native_freq.
    destruct (rows_of df alias); [done|].
    by destruct (_alias_unit_method df alias) as [[name unit] method].
  - subst c. unfold _build_series, _native_freq.
    destruct (rows_of df alias) as [|r0 sub].
    + simpl. by rewrite lookup_singleton_eq.
    + destruct (_alias_unit_method df alias) as [[name unit] method].
      simpl. by rewrite lookup_insert_eq.
Qed.

(** ** Further properties of the date filter *)

Lemma filter_sublist_step `{PyLib} (s : Series) (b : option string)
    (P : date → Timestamp → Prop) `{!∀ d t, Decision (P d t)} :
  match b with
  | Some t =>
      if decide (t = "") then s
      else match to_datetime t with
           | Some ts => filter (λ r, P r.1 ts) s
           | None => s
           end
  | None => s
  end `sublist_of` s.
Proof.
  destruct b as [t|]; [|done]. case_decide; [done|].
  destruct (to_datetime t); [apply sublist_filter|done].
Qed.

(** X6: the date filter only removes entries: what it returns is a
    sublist of the series, in the order of the series, whatever the
    bounds are; and filtering the result again with the same bounds
    changes nothing. *)
Theorem date_filter_only_removes `{PyLib} (s : Series)
    (dfrom dto : option string) :
  _apply_period_filter s dfrom dto `sublist_of` s ∧
  _apply_period_filter (_apply_period_filter s dfrom dto) dfrom dto
    = _apply_period_filter s dfrom dto.
Proof.
  split.
  - unfold _apply_period_filter.
    etransitivity; [apply (filter_sublist_step _ dto ts_le)|].
    apply (filter_sublist_step s dfrom ts_ge).
  - unfold _apply_period_filter.
    destruct dfrom as [f|], dto as [t|]; repeat case_decide;
      repeat (destruct (to_datetime _)); try done;
      rewrite ?list_filter_filter;
      apply list_filter_iff; intros e; tauto.
Qed.

(** X7: two bounds that parse to dates, the lower one after the upper
    one, give the empty table and the empty series, not an error. *)
Theorem inverted_bounds_give_empty `{PyLib} (df : DataFrame)
    (alias fv sfrom sto : string) (a b : date) :
  sfrom ≠ "" → sto ≠ "" →
  to_datetime sfrom = Some (TS a) → to_datetime sto = Some (TS b) →
  ¬ date_le a b →
  (∀ s, _apply_period_filter s (Some sfrom) (Some sto) = []) ∧
  (_build_table df alias fv (Some sfrom) (Some sto)).1.1.2 = [] ∧
  (_build_table df alias fv (Some sfrom) (Some sto)).1.2 = 0%nat ∧
  (_build_series df alias fv (Some sfrom) (Some sto)).1.1 = [] ∧
  (_build_series df alias fv (Some sfrom) (Some sto)).1.2 = [].
Proof.
  intros Hf Ht Ha Hb Hinv.
  assert (∀ s, _apply_period_filter s (Some sfrom) (Some sto) = []) as Hnil.
  { intros s. rewrite (filter_with_dates s sfrom sto a b Hf Ht Ha Hb).
    apply filter_none, Forall_forall. intros e _ [H1 H2].
    apply Hinv. by apply (date_le_trans _ e.1). }
  destruct (build_table_rows df alias fv (Some sfrom) (Some sto)) as [Hr Hn].
  destruct (build_series_xy df alias fv (Some sfrom) (Some sto)) as [Hx Hy].
  cbv zeta in Hr, Hn, Hx, Hy. rewrite Hnil in Hr, Hn, Hx, Hy.
  by split_and!.
Qed.

Lemma inverted_bounds_give_empty_witness :
  (_build_table (H := AsciiLib.lib) usd_rub "USD/RUB" "AUTO"
     (Some "2024-02-01") (Some "2024-01-31")).1.2 = 0%nat.
Proof.
  assert (to_datetime (PyLib := AsciiLib.lib) "2024-02-01"
            = Some (TS (mkdate 2024 2 1))) as Ha by (vm_compute; reflexivity).
  assert (to_datetime (PyLib := AsciiLib.lib) "2024-01-31"
            = Some (TS (mkdate 2024 1 31))) as Hb by (vm_compute; reflexivity).
  destruct (inverted_bounds_give_empty (H := AsciiLib.lib) usd_rub "USD/RUB"
              "AUTO" "2024-02-01" "2024-01-31" (mkdate 2024 2 1)
              (mkdate 2024 1 31) ltac:(discriminate) ltac:(discriminate)
              Ha Hb) as (_ & _ & Hn & _).
  - unfold date_le. vm_compute. intros [?|[? ?]]; discriminate.
  - exact Hn.
Defined.

(** X8: a bound that is text which [pd.to_datetime] reads as the
    missing timestamp [NaT] does not count as unusable: every comparison
    with it is false, so the filter removes every entry and the builders
    return the empty table and series. *)
Theorem nat_bound_removes_everything `{PyLib} (df : DataFrame)
    (alias fv b : string) (other : option string) :
  b ≠ "" → to_datetime b = Some NaT →
  (∀ s, _apply_period_filter s (Some b) other = []) ∧
  (∀ s, _apply_period_filter s other (Some b) = []) ∧
  (_build_table df alias fv (Some b) other).1.2 = 0%nat ∧
  (_build_table df alias fv other (Some b)).1.2 = 0%nat ∧
  (_build_series df alias fv (Some b) other).1.2 = [] ∧
  (_build_series df alias fv other (Some b)).1.2 = [].
Proof.
  intros Hb Hnat.
  assert (∀ s, _apply_period_filter s (Some b) other = []) as H1.
  { intros s.
    assert (_apply_period_filter s (Some b) other `sublist_of` []) as Hsub.
    { unfold _apply_period_filter at 1. rewrite decide_False by done.
      rewrite Hnat. rewrite (filter_none (λ r, ts_ge r.1 NaT) s)
        by (apply Forall_forall; intros e _ Hf; exact Hf).
      apply (filter_sublist_step [] other ts_le). }
    by apply sublist_nil_r in Hsub. }
  assert (∀ s, _apply_period_filter s other (Some b) = []) as H2.
  { intros s. unfold _apply_period_filter. rewrite decide_False by done.
    rewrite Hnat. apply filter_none, Forall_forall.
    intros e _ Hf. exact Hf. }
  destruct (build_table_rows df alias fv (Some b) other) as [_ Hn1].
  destruct (build_table_rows df alias fv other (Some b)) as [_ Hn2].
  destruct (build_series_xy df alias fv (Some b) other) as [_ Hy1].
  destruct (build_series_xy df alias fv other (Some b)) as [_ Hy2].
  cbv zeta in Hn1, Hn2, Hy1, Hy2.
  rewrite H1 in Hn1, Hy1. rewrite H2 in Hn2, Hy2.
  by split_and!.
Qed.

Lemma nat_bound_removes_everything_witness :
  (_build_table (H := NaTLib.lib) usd_rub "USD/RUB" "AUTO"
     (Some "NaT") None).1.2 = 0%nat ∧
  (_build_table (H := NaTLib.lib) usd_rub "USD/RUB" "AUTO"
     None None).1.2 = 2%nat.
Proof.
  destruct (nat_bound_removes_everything (H := NaTLib.lib) usd_rub "USD/RUB"
              "AUTO" "NaT" None ltac:(discriminate) eq_refl)
    as (_ & _ & Hn & _).
  split; [exact Hn|]. vm_compute. reflexivity.
Defined.

(** ** Further properties of the formatting *)

Lemma round_half_even_integer (z : Z) : round_half_even (z # 1) = z.
Proof.
  unfold round_half_even. simpl Qnum. simpl Qden.
  rewrite Z.div_1_r, Z.mod_1_r. done.
Qed.

Lemma format_fixed_integer (n : Z) :
  format_fixed 1 (inject_Z n)
    = (if decide (n < 0) then "-" else "") +:+ pretty (Z.abs n) +:+ ".0".
Proof.
  unfold format_fixed.
  change (Qmult (Qabs (inject_Z n)) (inject_Z (10 ^ Z.of_nat 1)))
    with (Z.abs n * 10 # 1).
  rewrite round_half_even_integer.
  change (10 ^ Z.of_nat 1) with 10.
  rewrite Z.div_mul, Z.mod_mul by done.
  done.
Qed.

Lemma append_empty (s1 s2 : string) : s1 +:+ s2 = "" → s1 = "" ∧ s2 = "".
Proof. by destruct s1. Qed.

Lemma format_fixed_not_empty (k : nat) (x : Q) : format_fixed k x ≠ "".
Proof.
  unfold format_fixed. intros Heq.
  apply append_empty in Heq as [_ Heq].
  apply append_empty in Heq as [_ Heq]. done.
Qed.

(** X9: a value that is present never formats to the empty text, which
    stands for a missing value alone; and a whole number of magnitude
    at least 1 is written with its digits, a minus sign if it is
    negative, and one decimal ".0". *)
Theorem round_val_present_and_whole (q : Q) (n : Z) :
  _round_val (Some q) ≠ "" ∧
  _round_val None = "" ∧
  (n ≠ 0 → _round_val (Some (inject_Z n)) = pretty n +:+ ".0").
Proof.
  split; [|split; [done|]].
  - unfold _round_val. destruct (Qle_bool 1 (Qabs q));
      apply format_fixed_not_empty.
  - intros Hn. unfold _round_val.
    assert (Qle_bool 1 (Qabs (inject_Z n)) = true) as ->.
    { unfold Qle_bool. simpl. apply Z.leb_le. lia. }
    rewrite format_fixed_integer.
    destruct n as [|p|p]; [done| |].
    + by rewrite decide_False by lia.
    + by rewrite decide_True by lia.
Qed.

Lemma round_val_present_and_whole_witness :
  _round_val (Some (inject_Z (-16))) = "-16.0".
Proof.
  destruct (round_val_present_and_whole 0%Q (-16)) as (_ & _ & Hn).
  rewrite Hn by discriminate. vm_compute. reflexivity.
Defined.

(** ** Further properties of the load *)

Global Instance alias_le_total : Total alias_le.
Proof.
  intros [x|] [y|]; simpl; auto.
  destruct (total String.le x y); auto.
Qed.

Lemma alias_le_trans (a b c : option string) :
  alias_le a b → alias_le b c → alias_le a c.
Proof.
  destruct a as [x|], b as [y|], c as [z|]; simpl; try done.
  intros ??. by etransitivity.
Qed.

Lemma alias_le_antisym (a b : option string) :
  alias_le a b → alias_le b a → a = b.
Proof.
  destruct a as [x|], b as [y|]; simpl; try done.
  intros ??. f_equal. by apply (anti_symm String.le).
Qed.

Lemma alias_le_refl (a : option string) : alias_le a a.
Proof. by destruct (total alias_le a a). Qed.

Global Instance row_le_total : Total row_le.
Proof.
  intros r1 r2. unfold row_le.
  destruct (decide (Alias r1 = Alias r2)) as [Heq|Hne].
  - rewrite Heq.
    destruct (date_le_total (Date r1) (Date r2)); [left|right];
      (split; [apply alias_le_refl|done]).
  - destruct (total alias_le (Alias r1) (Alias r2)); [left|right];
      (split; [done|]); intros Heq; by destruct Hne.
Qed.

Global Instance row_le_trans : Transitive row_le.
Proof.
  intros r1 r2 r3 [Ha12 Hd12] [Ha23 Hd23]. split.
  - by apply (alias_le_trans _ (Alias r2)).
  - intros Heq. rewrite Heq in Ha12.
    pose proof (alias_le_antisym _ _ Ha23 Ha12) as H23.
    apply (date_le_trans _ (Date r2)); [apply Hd12|apply Hd23]; congruence.
Qed.

Lemma StronglySorted_weaken {A} (R R' : relation A) (l : list A) :
  (∀ x y, x ∈ l → y ∈ l → R x y → R' x y) →
  StronglySorted R l → StronglySorted R' l.
Proof.
  intros Himp Hs. induction Hs as [|x l Hl IH Hx]; [constructor|].
  constructor.
  - apply IH. intros a b Ha Hb. apply Himp; by right.
  - rewrite Forall_forall in Hx. apply Forall_forall. intros y Hy.
    apply Himp; [by left|by right|by apply Hx].
Qed.

Lemma normalise_sorted `{PyLib} (sheet : string) (raw : RawFrame)
    (df : DataFrame) :
  normalise sheet raw = Ok df → StronglySorted row_le df.
Proof.
  unfold normalise. intros Hn.
  destruct (list_find _ required) as [[i r]|]; [done|].
  destruct (mapM _ (body raw)) as [rows|]; [|done].
  injection Hn as <-. apply StronglySorted_merge_sort; apply _.
Qed.

(** X10: a load that succeeds returns the rows sorted by alias, rows
    without alias last, and by date within one alias; so the rows of an
    alias are in date order, and the first of them, from which the
    native frequency and the method are taken, is the earliest. *)
Theorem loaded_rows_are_sorted `{PyLib} (sheet : string) (raw : RawFrame)
    (df : DataFrame) :
  normalise sheet raw = Ok df →
  StronglySorted row_le df ∧
  (∀ alias,
     StronglySorted (λ a b, date_le (Date a) (Date b)) (rows_of df alias)) ∧
  (∀ alias r0 sub r, rows_of df alias = r0 :: sub → r ∈ sub →
     date_le (Date r0) (Date r)).
Proof.
  intros Hn. pose proof (normalise_sorted _ _ _ Hn) as Hs.
  assert (∀ alias,
    StronglySorted (λ a b, date_le (Date a) (Date b)) (rows_of df alias))
    as Hrows.
  { intros alias.
    apply (StronglySorted_weaken row_le);
      [|by apply StronglySorted_filter].
    intros x y Hx Hy [_ Hd].
    apply rows_of_alias in Hx as [_ Hx].
    apply rows_of_alias in Hy as [_ Hy]. apply Hd. congruence. }
  split; [done|]. split; [done|].
  intros alias r0 sub r Hsub Hr. specialize (Hrows alias).
  rewrite Hsub in Hrows. apply StronglySorted_cons in Hrows as [Hall _].
  rewrite Forall_forall in Hall. by apply Hall.
Qed.

Lemma loaded_rows_are_sorted_witness :
  normalise (H := AsciiLib.lib) "main" usd_sheet = Ok usd_rub ∧
  StronglySorted row_le usd_rub.
Proof.
  assert (normalise (H := AsciiLib.lib) "main" usd_sheet = Ok usd_rub)
    as Hn by (vm_compute; reflexivity).
  split; [exact Hn|].
  by destruct (loaded_rows_are_sorted (H := AsciiLib.lib) _ _ _ Hn).
Defined.

(** X11: the load succeeds only when each of Date, Name, Value, Unit,
    Freq and Method is the standard name of some column of the sheet;
    when one is not, the load raises [ValueError] with the message that
    names the sheet and the first such column in that order, before any
    date is read. *)
Theorem load_requires_columns `{PyLib} (sheet : string) (raw : RawFrame) :
  let cols := std_col <$> columns raw in
  (∀ df, normalise sheet raw = Ok df → Forall (λ r, r ∈ cols) required) ∧
  (∀ (i : nat) r,
     required !! i = Some r → r ∉ cols →
     (∀ (j : nat) r', required !! j = Some r' → (j < i)%nat → r' ∈ cols) →
     normalise sheet raw
       = Raise (ValueError ("В листе '" +:+ sheet +:+
                            "' отсутствует обязательный столбец: " +:+ r))).
Proof.
  intros cols. split.
  - intros df Hn. unfold normalise in Hn. fold cols in Hn.
    destruct (list_find (λ r, r ∉ cols) required) as [[i r]|] eqn:Hfind;
      [done|].
    apply list_find_None in Hfind.
    eapply Forall_impl; [exact Hfind|]. intros r Hr. simpl in Hr.
    by apply dec_stable.
  - intros i r Hi Hr Hbefore. unfold normalise. fold cols.
    assert (list_find (λ r, r ∉ cols) required = Some (i, r)) as ->; [|done].
    apply list_find_Some. split; [done|]. split; [done|].
    intros j r' Hj Hlt Hnot. apply Hnot. by apply (Hbefore j).
Qed.

Lemma load_requires_columns_witness :
  normalise (H := AsciiLib.lib) "main" sheet_without_unit
    = Raise (ValueError
               "В листе 'main' отсутствует обязательный столбец: Unit").
Proof.
  destruct (load_requires_columns (H := AsciiLib.lib) "main"
              sheet_without_unit) as [_ Herr].
  rewrite (Herr 3%nat "Unit"); [vm_compute; reflexivity|reflexivity| |].
  - vm_compute. intros Hin.
    repeat (apply elem_of_cons in Hin as [Hin|Hin]; [discriminate|]).
    by apply elem_of_nil in Hin.
  - intros j r' Hj Hlt.
    destruct j as [|[|[|j]]]; [| | |lia]; injection Hj as <-;
      vm_compute; repeat constructor.
Defined.

Lemma normalise_row_source `{PyLib} (sheet : string) (raw : RawFrame)
    (df : DataFrame) (r : Row) :
  normalise sheet raw = Ok df → r ∈ df →
  ∃ row, row ∈ body raw ∧ mk_row (std_col <$> columns raw) row = Some r.
Proof.
  intros Hn Hr.
  destruct (normalise_rows _ _ _ Hn) as (rows & Hrows & Hperm).
  rewrite Hperm in Hr. apply mapM_Some in Hrows.
  apply list_elem_of_lookup in Hr as [i Hi].
  destruct (Forall2_lookup_r _ _ _ _ _ Hrows Hi) as (row & Hrow & Hmk).
  exists row. split; [|done]. apply list_elem_of_lookup. by exists i.
Qed.



(** X13: on a dataset that a load returned, the codes of every alias
    are ones the builders know: the native frequency has an entry in
    [FREQ_RULE], the method is "avg" or "eop", and the aggregation that
    [_resample_series] applies is the mean exactly when the table header
    says "в среднем за период" and the last value exactly when it says
    "на конец периода". *)
Theorem loaded_codes_are_understood `{PyLib} (sheet : string)
    (raw : RawFrame) (df : DataFrame) (alias : string)
    (r0 : Row) (sub : DataFrame) :
  normalise sheet raw = Ok df →
  rows_of df alias = r0 :: sub →
  is_Some (FREQ_RULE !! Freq r0) ∧
  (Method r0 = "avg" ∨ Method r0 = "eop") ∧
  (∀ s f unit,
     (header_for alias (Method r0) unit
        = header_for alias "avg" unit ∧
      _resample_series s f (Method r0)
        = resample (default MonthEnd (FREQ_RULE !! f)) group_mean s) ∨
     (header_for alias (Method r0) unit
        = header_for alias "eop" unit ∧
      _resample_series s f (Method r0)
        = resample (default MonthEnd (FREQ_RULE !! f)) group_last s)).
Proof.
  intros Hn Hsub.
  assert (r0 ∈ df) as Hr0.
  { assert (r0 ∈ rows_of df alias) as Hin by (rewrite Hsub; left).
    apply rows_of_alias in Hin. tauto. }
  destruct (normalise_row_source _ _ _ _ Hn Hr0) as (row & _ & Hmk).
  destruct (mk_row_codes _ _ _ Hmk) as [HF HM].
  assert (Method r0 = "avg" ∨ Method r0 = "eop") as Hmethod.
  { pose proof (method_of_code_range
                  (str_strip (str_lower
                     (astype_str (cell (std_col <$> columns raw) "Method" row)))))
      as Hin.
    rewrite <- HM in Hin.
    apply elem_of_cons in Hin as [?|Hin]; [by left|].
    apply elem_of_cons in Hin as [?|Hin]; [by right|].
    by apply elem_of_nil in Hin. }
  split; [|split; [done|]].
  - pose proof (freq_of_code_range
                  (str_strip (str_upper
                     (astype_str (cell (std_col <$> columns raw) "Freq" row)))))
      as Hin.
    rewrite <- HF in Hin.
    apply elem_of_cons in Hin as [->|Hin]; [by eexists|].
    apply elem_of_cons in Hin as [->|Hin]; [by eexists|].
    apply elem_of_cons in Hin as [->|Hin]; [by eexists|].
    by apply elem_of_nil in Hin.
  - intros s f unit. destruct Hmethod as [->| ->]; [left|right];
      (split; [done|]); unfold _resample_series.
    + by rewrite decide_False by done.
    + by rewrite decide_True by done.
Qed.

Lemma loaded_codes_are_understood_witness :
  normalise (H := AsciiLib.lib) "main" usd_sheet = Ok usd_rub ∧
  is_Some (FREQ_RULE !! Freq (usd (mkdate 2024 1 15) 90)).
Proof.
  assert (normalise (H := AsciiLib.lib) "main" usd_sheet = Ok usd_rub)
    as Hn by (vm_compute; reflexivity).
  split; [exact Hn|].
  by destruct (loaded_codes_are_understood (H := AsciiLib.lib) "main"
                 usd_sheet usd_rub "USD/RUB" (usd (mkdate 2024 1 15) 90)
                 [usd (mkdate 2024 2 15) 92] Hn eq_refl) as [? _].
Defined.

(** ** Further properties of the cache *)

Lemma get_df_missing `{PyLib} (self : App.DataCache) (w : World) :
  files w !! App.path self = None →
  App.get_df self w = (Raise (FileNotFoundError (App.path self)), self, w).
Proof. intros Hf. unfold App.get_df. by rewrite Hf. Qed.

Lemma get_df_ok `{PyLib} (self self' : App.DataCache) (w w' : World)
    (d : DataFrame) :
  App.get_df self w = (Ok d, self', w') →
  ∃ f, files w !! App.path self = Some f ∧
       self' = App.mkCache (App.path self) (App.sheet self) (st_mtime f)
                 (Some d) ∧
       files w' = files w.
Proof.
  intros Hget.
  destruct (files w !! App.path self) as [f|] eqn:Hf;
    [|by rewrite (get_df_missing self w Hf) in Hget].
  exists f. split; [done|].
  assert (Decision (stale self f)) as [Hs|Hns] by (unfold stale; apply _).
  - rewrite (get_df_stale self w f Hf Hs) in Hget.
    destruct (App._read_excel self w).1; by simplify_eq.
  - destruct (get_df_fresh self w f Hf Hns) as (d' & Hd' & Heq).
    rewrite Heq in Hget. simplify_eq. split; [|done].
    destruct self' as [p sh m dfo]. unfold stale in Hns. simpl in *. subst.
    f_equal. destruct (decide (st_mtime f = m)); [done|].
    exfalso. apply Hns. by right.
Qed.

(** X14: after a call of [get_df] that returned a dataset, the cache
    holds that dataset and the modification time of the file; a further
    call, the files being the same, returns the same dataset with the
    cache untouched and without a call of the parser; and if the file is
    gone by then, the call raises [FileNotFoundError] although a dataset
    is cached, and the cache keeps it. *)
Theorem cache_after_successful_call `{PyLib} (self self' : App.DataCache)
    (w w' : World) (d : DataFrame) :
  App.get_df self w = (Ok d, self', w') →
  App.df self' = Some d ∧
  (∃ f, files w !! App.path self = Some f ∧ App.mtime self' = st_mtime f) ∧
  App.path self' = App.path self ∧
  (∀ w2, files w2 = files w → App.get_df self' w2 = (Ok d, self', w2)) ∧
  (∀ w2, files w2 !! App.path self = None →
     App.get_df self' w2
       = (Raise (FileNotFoundError (App.path self)), self', w2)).
Proof.
  intros Hget. destruct (get_df_ok _ _ _ _ _ Hget) as (f & Hf & -> & Hfiles).
  split; [done|]. split; [by exists f|]. split; [done|]. split.
  - intros w2 Hw2.
    destruct (get_df_fresh
                (App.mkCache (App.path self) (App.sheet self) (st_mtime f)
                   (Some d)) w2 f) as (d' & Hd' & Heq).
    + simpl. by rewrite Hw2.
    + unfold stale. simpl. intros [?|?]; done.
    + simpl in Hd'. by simplify_eq.
  - intros w2 Hgone.
    by rewrite (get_df_missing
                  (App.mkCache (App.path self) (App.sheet self) (st_mtime f)
                     (Some d)) w2 Hgone).
Qed.

Lemma cache_after_successful_call_witness :
  let first := App.get_df (H := AsciiLib.lib)
                 (App.init "macro_data.xlsx" "main") usd_world in
  first.1.1 = Ok usd_rub ∧
  App.get_df (H := AsciiLib.lib) first.1.2 (mkWorld ∅ 7)
    = (Raise (FileNotFoundError "macro_data.xlsx"), first.1.2, mkWorld ∅ 7).
Proof.
  intros first.
  assert (first = (Ok usd_rub,
                   App.mkCache "macro_data.xlsx" "main" 1700000000
                     (Some usd_rub),
                   count_call usd_world)) as Hfirst
    by (vm_compute; reflexivity).
  split; [by rewrite Hfirst|].
  destruct (cache_after_successful_call (H := AsciiLib.lib) _ _ _ _ _ Hfirst)
    as (_ & _ & _ & _ & Hgone).
  rewrite Hfirst. simpl. apply Hgone. reflexivity.
Defined.

(** ** The indicator listing *)

Lemma unique_elem_of {A} `{EqDecision A} (l : list A) (x : A) :
  x ∈ unique l ↔ x ∈ l.
Proof.
  induction l as [|y l IH]; [done|]. simpl.
  rewrite !elem_of_cons, list_elem_of_filter, IH.
  destruct (decide (x = y)); tauto.
Qed.

Lemma unique_NoDup {A} `{EqDecision A} (l : list A) : NoDup (unique l).
Proof.
  induction l as [|y l IH]; [constructor|]. simpl.
  constructor; [|by apply NoDup_filter].
  rewrite list_elem_of_filter. by intros [? _].
Qed.

Lemma StronglySorted_lookup {A} (R : relation A) (l : list A)
    (i j : nat) (x y : A) :
  StronglySorted R l → (i < j)%nat →
  l !! i = Some x → l !! j = Some y → R x y.
Proof.
  intros Hs. revert i j.
  induction Hs as [|a l Hl IH Ha]; intros i j Hij Hi Hj; [done|].
  destruct j as [|j]; [lia|]. simpl in Hj.
  destruct i as [|i].
  - simpl in Hi. injection Hi as <-.
    rewrite Forall_forall in Ha. apply Ha.
    apply list_elem_of_lookup. by exists j.
  - simpl in Hi. apply (IH i j); [lia|done|done].
Qed.

Lemma rank_preferred (x : string) : x ∈ prefer → (rank x < 4)%nat.
Proof.
  intros Hx. unfold rank.
  destruct (list_find (λ p, p = x) prefer) as [[i p]|] eqn:Hfind.
  - apply list_find_Some in Hfind as (Hi & _ & _).
    apply lookup_lt_Some in Hi. simpl in Hi. lia.
  - apply list_find_None in Hfind. rewrite Forall_forall in Hfind.
    by destruct (Hfind x Hx).
Qed.

Lemma rank_other (x : string) : x ∉ prefer → rank x = 999%nat.
Proof.
  intros Hx. unfold rank.
  destruct (list_find (λ p, p = x) prefer) as [[i p]|] eqn:Hfind; [|done].
  apply list_find_Some in Hfind as (Hi & -> & _).
  destruct Hx. apply list_elem_of_lookup. by exists i.
Qed.

Lemma rank_injective (x y : string) :
  x ∈ prefer → rank x = rank y → x = y.
Proof.
  intros Hx Heq. pose proof (rank_preferred x Hx) as Hlt.
  unfold rank in Heq, Hlt.
  destruct (list_find (λ p, p = x) prefer) as [[i p]|] eqn:Hfx; [|lia].
  destruct (list_find (λ p, p = y) prefer) as [[j q]|] eqn:Hfy; [|lia].
  apply list_find_Some in Hfx as (Hi & -> & _).
  apply list_find_Some in Hfy as (Hj & -> & _).
  subst j. congruence.
Qed.

Global Instance listing_le_total : Total listing_le.
Proof.
  intros x y. unfold listing_le.
  destruct (Nat.lt_trichotomy (rank x) (rank y)) as [?|[Heq|?]];
    [by left; left| |by right; left].
  destruct (total String.le x y); [left|right]; right; by rewrite Heq.
Qed.

Global Instance listing_le_trans : Transitive listing_le.
Proof.
  intros x y z [H1|[H1 H1']] [H2|[H2 H2']]; unfold listing_le;
    [left; lia|left; lia|left; lia|].
  right. split; [lia|]. by etransitivity.
Qed.

(** X15: the indicator listing holds exactly the aliases that occur in
    the dataset, each once; the preferred aliases come before all
    others, in the order USD/RUB, Инфляция, Ключевая ставка, ВВП; the
    others follow in the order of their text; so USD/RUB is the first
    entry whenever it occurs. *)
Theorem indicator_listing_order (df : DataFrame) :
  let l := api_indicators df in
  (∀ x, x ∈ l ↔ ∃ r, r ∈ df ∧ Alias r = Some x) ∧
  NoDup l ∧
  (∀ (i j : nat) x y, l !! i = Some x → l !! j = Some y →
     x ∈ prefer → y ∉ prefer → (i < j)%nat) ∧
  (∀ (i j : nat) x y, (i < j)%nat → l !! i = Some x → l !! j = Some y →
     (x ∈ prefer → y ∈ prefer → (rank x < rank y)%nat) ∧
     (x ∉ prefer → (y ∉ prefer) ∧ String.le x y)) ∧
  ("USD/RUB" ∈ l → head l = Some "USD/RUB").
Proof.
  intros l.
  assert (l ≡ₚ unique (omap Alias df)) as Hperm
    by apply merge_sort_Permutation.
  assert (StronglySorted listing_le l) as Hs
    by (apply StronglySorted_merge_sort; apply _).
  assert (NoDup l) as Hnd by (rewrite Hperm; apply unique_NoDup).
  assert (∀ (i j : nat) x y, (i < j)%nat → l !! i = Some x →
            l !! j = Some y → listing_le x y ∧ x ≠ y) as Hpair.
  { intros i j x y Hij Hi Hj. split.
    - by apply (StronglySorted_lookup _ l i j).
    - intros ->. pose proof (NoDup_lookup _ _ _ _ Hnd Hi Hj). lia. }
  split_and!.
  - intros x. rewrite Hperm, unique_elem_of, list_elem_of_omap. done.
  - done.
  - intros i j x y Hi Hj Hx Hy.
    destruct (decide (i < j)%nat) as [|Hge]; [done|]. exfalso.
    assert (i ≠ j) by (intros ->; congruence).
    destruct (Hpair j i y x ltac:(lia) Hj Hi) as [Hle _].
    pose proof (rank_preferred x Hx). pose proof (rank_other y Hy).
    unfold listing_le in Hle. lia.
  - intros i j x y Hij Hi Hj.
    destruct (Hpair i j x y Hij Hi Hj) as [Hle Hne]. split.
    + intros Hx Hy. unfold listing_le in Hle.
      destruct Hle as [?|[Heq _]]; [done|].
      by destruct (Hne (rank_injective x y Hx Heq)).
    + intros Hx. pose proof (rank_other x Hx) as Hrx.
      unfold listing_le in Hle.
      destruct (decide (y ∈ prefer)) as [Hy|Hy].
      * pose proof (rank_preferred y Hy). lia.
      * split; [done|]. pose proof (rank_other y Hy).
        destruct Hle as [?|[_ ?]]; [lia|done].
  - intros Hin. apply list_elem_of_lookup in Hin as [j Hj].
    destruct j as [|j]; [by rewrite <- head_lookup in Hj|].
    destruct l as [|x l'] eqn:Hl; [done|]. simpl. f_equal.
    destruct (Hpair 0%nat (S j) x "USD/RUB" ltac:(lia) eq_refl Hj)
      as [Hle _].
    symmetry. apply (rank_injective "USD/RUB" x); [by left|].
    unfold listing_le in Hle.
    change (rank "USD/RUB") with 0%nat in *. lia.
Qed.

(** ** The default indicator of the routes *)

Lemma rows_of_nonempty (df : DataFrame) (a : string) :
  rows_of df a ≠ [] ↔ ∃ r, r ∈ df ∧ Alias r = Some a.
Proof.
  split.
  - intros Hne. destruct (rows_of df a) as [|r sub] eqn:Hsub; [done|].
    exists r. apply rows_of_alias. rewrite Hsub. by left.
  - intros (r & Hr & Ha) Hnil.
    assert (r ∈ rows_of df a) as Hin by (by apply rows_of_alias).
    rewrite Hnil in Hin. by apply elem_of_nil in Hin.
Qed.

Lemma index_indicators_present (df : DataFrame) :
  Forall (λ r, is_Some (Alias r)) df →
  ∃ ind, index_indicators df = inr ind ∧
         StronglySorted alias_le ind ∧
         (∀ a, a ∈ ind ↔ ∃ r, r ∈ df ∧ Alias r = a) ∧
         None ∉ ind.
Proof.
  intros Hall. unfold index_indicators.
  assert (∀ a, a ∈ unique (Alias <$> df) ↔ ∃ r, r ∈ df ∧ Alias r = a) as Hmem.
  { intros a. rewrite unique_elem_of, list_elem_of_fmap.
    split; [intros (r & -> & Hr); by exists r|intros (r & Hr & <-); by exists r]. }
  assert (None ∉ unique (Alias <$> df)) as Hnone.
  { intros Hin. apply Hmem in Hin as (r & Hr & Ha).
    rewrite Forall_forall in Hall. specialize (Hall r Hr).
    rewrite Ha in Hall. by destruct Hall. }
  rewrite decide_False by tauto.
  eexists. split; [done|]. split_and!.
  - apply StronglySorted_merge_sort; [|apply _].
    intros a b c. apply alias_le_trans.
  - intros a. by rewrite merge_sort_Permutation.
  - by rewrite merge_sort_Permutation.
Qed.

(** X16: on a dataset that is not empty and whose rows all have an
    alias, the name that [index] takes when the query gives none is an
    alias that has rows, so the first table is never the empty table of
    an unknown alias: it is USD/RUB when that has rows, else Ключевая
    ставка when that has rows, else the alias that comes first in the
    order of the text. The name that [table_data] takes, the alias of
    the first row, has rows as well. *)
Theorem default_indicator_has_rows (df : DataFrame) :
  df ≠ [] →
  Forall (λ r, is_Some (Alias r)) df →
  (∃ a, index_default_name df = inr (Some a) ∧
        rows_of df a ≠ [] ∧
        (rows_of df "USD/RUB" ≠ [] → a = "USD/RUB") ∧
        (rows_of df "USD/RUB" = [] → rows_of df "Ключевая ставка" ≠ [] →
           a = "Ключевая ставка") ∧
        (rows_of df "USD/RUB" = [] → rows_of df "Ключевая ставка" = [] →
           ∀ r, r ∈ df → alias_le (Some a) (Alias r))) ∧
  (∃ a, first_row_name df = inr (Some a) ∧ rows_of df a ≠ []).
Proof.
  intros Hne Hall. split.
  - destruct (index_indicators_present df Hall)
      as (ind & Hind & Hs & Hmem & Hnone).
    assert (∀ p, Some p ∈ ind ↔ rows_of df p ≠ []) as Hrows.
    { intros p. by rewrite Hmem, rows_of_nonempty. }
    unfold index_default_name. rewrite Hind.
    destruct (list_find (λ p, Some p ∈ ind) ["USD/RUB"; "Ключевая ставка"])
      as [[i p]|] eqn:Hfind.
    + apply list_find_Some in Hfind as (Hi & Hp & Hmin).
      exists p. split; [done|]. split; [by apply Hrows|].
      destruct i as [|[|i]]; simpl in Hi; [| |done]; injection Hi as <-.
      * split_and!; [done| |]; intros Hnil; by apply Hrows in Hp.
      * split_and!.
        -- intros Husd. apply Hrows in Husd.
           by destruct (Hmin 0%nat "USD/RUB" eq_refl ltac:(lia)).
        -- done.
        -- intros _ Hnil. by apply Hrows in Hp.
    + apply list_find_None in Hfind.
      apply Forall_cons in Hfind as [Husd Hrest].
      apply Forall_cons in Hrest as [Hkey _].
      destruct ind as [|a ind'] eqn:Heq.
      { destruct df as [|r df']; [done|]. exfalso.
        assert (Alias r ∈ []) as Hin by (apply Hmem; exists r; split; [by left|done]).
        by apply elem_of_nil in Hin. }
      destruct a as [a|]; [|by destruct Hnone; left].
      exists a. split; [done|]. split; [apply Hrows; by left|].
      split_and!.
      * intros H1. by apply Hrows in H1.
      * intros _ H2. by apply Hrows in H2.
      * intros _ _ r Hr.
        assert (Alias r ∈ Some a :: ind') as Hin by (apply Hmem; eauto).
        apply elem_of_cons in Hin as [->|Hin]; [apply alias_le_refl|].
        apply StronglySorted_cons in Hs as [Hfirst _].
        rewrite Forall_forall in Hfirst. by apply Hfirst.
  - destruct df as [|r df']; [done|].
    apply Forall_cons in Hall as [[a Ha] _].
    exists a. simpl. split; [by rewrite Ha|].
    apply rows_of_nonempty. exists r. split; [by left|done].
Qed.

Lemma default_indicator_has_rows_witness :
  index_default_name (key_rate ++ gdp_rows) = inr (Some "Ключевая ставка") ∧
  index_default_name gdp_rows = inr (Some "ВВП, % г/г").
Proof.
  assert (gdp_rows ≠ []) as Hne by discriminate.
  assert (Forall (λ r, is_Some (Alias r)) gdp_rows) as Hall
    by (repeat constructor; by eexists).
  destruct (default_indicator_has_rows gdp_rows Hne Hall)
    as [(a & Ha & _) _].
  split; [vm_compute; reflexivity|].
  rewrite Ha. vm_compute in Ha. by injection Ha as <-.
Defined.

(** X17: [index] raises [IndexError] on the empty dataset, and
    [TypeError] on a dataset in which some row has no alias and some
    other row has one, because sorting the aliases then compares a
    missing value with a text; [table_data] raises on the empty dataset
    alone. *)
Theorem default_indicator_errors (df : DataFrame) (r1 r2 : Row) :
  r1 ∈ df → r2 ∈ df → Alias r1 = None → is_Some (Alias r2) →
  index_default_name df = inl TypeError ∧
  (∃ a, first_row_name df = inr a) ∧
  index_default_name [] = inl IndexError ∧
  first_row_name [] = inl IndexError.
Proof.
  intros H1 H2 Hnone [x Hx].
  split; [|split; [|done]].
  - unfold index_default_name, index_indicators.
    assert (None ∈ unique (Alias <$> df)) as Hin1.
    { apply unique_elem_of, list_elem_of_fmap. by exists r1. }
    assert (Some x ∈ unique (Alias <$> df)) as Hin2.
    { apply unique_elem_of, list_elem_of_fmap. by exists r2. }
    rewrite decide_True; [done|]. split; [done|].
    destruct (unique (Alias <$> df)) as [|a [|b u]]; simpl; [|exfalso|lia].
    + by apply elem_of_nil in Hin1.
    + apply list_elem_of_singleton in Hin1, Hin2. congruence.
  - destruct df as [|r df']; [by apply elem_of_nil in H1|]. by eexists.
Qed.

Lemma default_indicator_errors_witness :
  index_default_name
    (usd_rub ++ [mkRow (mkdate 2024 3 1) (Some "Без псевдонима") None None
                   "M" "avg" None])
    = inl TypeError.
Proof.
  apply (default_indicator_errors _
           (mkRow (mkdate 2024 3 1) (Some "Без псевдонима") None None
              "M" "avg" None)
           (usd (mkdate 2024 1 15) 90)).
  - apply elem_of_app. right. by left.
  - apply elem_of_app. left. by left.
  - reflexivity.
  - by eexists.
Defined.

(** ** Basic authentication *)

(** X18: a request passes the authentication hook exactly when
    REQUIRE_BASIC_AUTH is not the text "1", or the request carries a
    user name and a password equal to BASIC_AUTH_USER and
    BASIC_AUTH_PASS of the environment, "user" and "pass" when unset;
    every other request gets the 401 response with the WWW-Authenticate
    header; and the hook of [app.py], with its settings read from the
    same environment, decides as the one of [security.py]. *)
Theorem auth_hook_passes_iff (env : gmap string string)
    (authorization : option Security.Authorization) :
  (Security.maybe_require_auth env authorization = None ↔
     Security.getenv env "REQUIRE_BASIC_AUTH" "0" ≠ "1" ∨
     ∃ auth, authorization = Some auth ∧
             Security.username auth
               = Some (Security.getenv env "BASIC_AUTH_USER" "user") ∧
             Security.password auth
               = Some (Security.getenv env "BASIC_AUTH_PASS" "pass")) ∧
  (Security.maybe_require_auth env authorization ≠ None →
     Security.maybe_require_auth env authorization
       = Some Security._authenticate ∧
     Security.status_code Security._authenticate = 401 ∧
     is_Some (Security.headers Security._authenticate !! "WWW-Authenticate")) ∧
  _maybe_basic_auth (auth_config env) authorization
    = Security.maybe_require_auth env authorization.
Proof.
  split_and!.
  - unfold Security.maybe_require_auth, Security._basic_auth_required,
      Security._check_auth.
    destruct (decide (Security.getenv env "REQUIRE_BASIC_AUTH" "0" = "1"))
      as [Hreq|Hreq].
    + rewrite (bool_decide_eq_true_2 _ Hreq). simpl.
      destruct authorization as [auth|].
      * destruct (decide (Security.username auth
                            = Some (Security.getenv env "BASIC_AUTH_USER" "user")))
          as [Hu|Hu];
        destruct (decide (Security.password auth
                            = Some (Security.getenv env "BASIC_AUTH_PASS" "pass")))
          as [Hp|Hp];
        rewrite ?(bool_decide_eq_true_2 _ Hu), ?(bool_decide_eq_false_2 _ Hu),
          ?(bool_decide_eq_true_2 _ Hp), ?(bool_decide_eq_false_2 _ Hp);
        simpl; split; try done.
        -- intros _. right. by exists auth.
        -- intros [?|(a & [= <-] & _ & ?)]; done.
        -- intros [?|(a & [= <-] & ? & _)]; done.
        -- intros [?|(a & [= <-] & ? & _)]; done.
      * split; [done|]. intros [?|(a & ? & _)]; done.
    + rewrite (bool_decide_eq_false_2 _ Hreq). simpl. split; [|done].
      intros _. by left.
  - intros Hsome. split; [|split; [done|by eexists]].
    unfold Security.maybe_require_auth in *.
    destruct (negb _); [done|].
    destruct authorization as [auth|]; [|done].
    by destruct (negb _).
  - done.
Qed.

(** X19: when REQUIRE_BASIC_AUTH is "1" and neither BASIC_AUTH_USER nor
    BASIC_AUTH_PASS is set, the pair "user" and "pass" is let through,
    and a request without credentials, or with a password missing, is
    refused. *)
Theorem unset_credentials_default (env : gmap string string)
    (u : option string) :
  env !! "REQUIRE_BASIC_AUTH" = Some "1" →
  env !! "BASIC_AUTH_USER" = None →
  env !! "BASIC_AUTH_PASS" = None →
  Security.maybe_require_auth env
    (Some (Security.mkAuth (Some "user") (Some "pass"))) = None ∧
  Security.maybe_require_auth env None = Some Security._authenticate ∧
  Security.maybe_require_auth env (Some (Security.mkAuth u None))
    = Some Security._authenticate.
Proof.
  intros Hreq Hu Hp.
  unfold Security.maybe_require_auth, Security._basic_auth_required,
    Security._check_auth, Security.getenv.
  rewrite Hreq, Hu, Hp. simpl.
  split; [done|]. split; [done|].
  by rewrite andb_false_r.
Qed.

Lemma unset_credentials_default_witness :
  Security.maybe_require_auth {["REQUIRE_BASIC_AUTH" := "1"]}
    (Some (Security.mkAuth (Some "user") (Some "pass"))) = None.
Proof.
  assert (({["REQUIRE_BASIC_AUTH" := "1"]} : gmap string string)
            !! "REQUIRE_BASIC_AUTH" = Some "1") as Hreq
    by (vm_compute; reflexivity).
  assert (({["REQUIRE_BASIC_AUTH" := "1"]} : gmap string string)
            !! "BASIC_AUTH_USER" = None) as Hu by (vm_compute; reflexivity).
  assert (({["REQUIRE_BASIC_AUTH" := "1"]} : gmap string string)
            !! "BASIC_AUTH_PASS" = None) as Hp by (vm_compute; reflexivity).
  by destruct (unset_credentials_default _ None Hreq Hu Hp) as [? _].
Defined.

(** ** [utils/data_loader.py]: reading the file *)

Lemma convert_date_column_shape `{PyLib} (col : string) (df0 : RawFrame) :
  let df := DataLoaderFile.convert_date_column col df0 in
  columns df = columns df0 ∧
  length (body df) = length (body df0) ∧
  (∀ (k : nat) row, body df !! k = Some row →
     ∃ row0, body df0 !! k = Some row0 ∧
             length row = length row0 ∧
             ∀ (j : nat) c, columns df0 !! j = Some c → c ≠ col →
                            row !! j = row0 !! j) ∧
  (col ∉ columns df0 → df = df0).
Proof.
  intros df. subst df. unfold DataLoaderFile.convert_date_column.
  assert (∀ k row, body df0 !! k = Some row →
            ∃ row0, body df0 !! k = Some row0 ∧ length row = length row0 ∧
                    ∀ (j : nat) c, columns df0 !! j = Some c → c ≠ col →
                                   row !! j = row0 !! j) as Hsame.
  { intros k row Hk. by exists row. }
  destruct ((filter (λ ic : nat * string, ic.2 = col)
               (imap pair (columns df0))).*1) as [|i [|i' rest]] eqn:Hpos;
    [done| |done].
  assert (columns df0 !! i = Some col) as Hi.
  { assert (i ∈ (filter (λ ic : nat * string, ic.2 = col)
                   (imap pair (columns df0))).*1) as Hin
      by (rewrite Hpos; by left).
    apply list_elem_of_fmap in Hin as ([i0 c] & -> & Hin).
    apply list_elem_of_filter in Hin as [Hc Hin]. simpl in Hc. subst c.
    apply elem_of_lookup_imap in Hin as (i1 & c1 & [= -> ->] & Hl). done. }
  destruct (mapM _ (body df0)) as [rows|] eqn:Hrows.
  2: { split_and!; try done. }
  simpl. apply mapM_Some in Hrows.
  split_and!.
  - done.
  - symmetry. by eapply Forall2_length.
  - intros k row Hk.
    destruct (Forall2_lookup_r _ _ _ _ _ Hrows Hk) as (row0 & Hk0 & Hconv).
    exists row0. split; [done|].
    destruct (DataLoaderFile.date_cell (default CNaN (row0 !! i)))
      as [c|]; [|done].
    simpl in Hconv. injection Hconv as <-.
    split; [by rewrite length_insert|].
    intros j c' Hj Hne. apply list_lookup_insert_ne. congruence.
  - intros Hnot. destruct Hnot. apply list_elem_of_lookup. by exists i.
Qed.

(** X20: a path whose extension, in lower case, is neither ".xlsx" nor
    ".csv" makes [_load] raise [ValueError] with the message that names
    the extension, whatever the files hold; through [get_df] on a cache
    as [__init__] makes it, the exception comes out, the cache stays as
    made, and the next call tries again. *)
Theorem unsupported_extension_raises `{PyLib}
    (read_excel : string → option string → World → result RawFrame)
    (read_csv : string → World → result RawFrame)
    (path date_column : string) (excel_sheet : option string)
    (w : World) (f : File) :
  let ext := str_lower (splitext path).2 in
  let self := DataLoaderFile.init path date_column excel_sheet in
  let err := ValueError ("Unsupported data file format: " +:+ ext) in
  ext ≠ ".xlsx" → ext ≠ ".csv" →
  files w !! path = Some f →
  DataLoaderFile._load read_excel read_csv self w = Raise err ∧
  DataLoader.get_df (DataLoaderFile._load read_excel read_csv) self w
    = (Raise err, self, count_call w) ∧
  DataLoader.get_df (DataLoaderFile._load read_excel read_csv) self
      (count_call w)
    = (Raise err, self, count_call (count_call w)).
Proof.
  intros ext self err Hx Hc Hf.
  assert (∀ w', DataLoaderFile._load read_excel read_csv self w' = Raise err)
    as Hload.
  { intros w'. unfold DataLoaderFile._load. simpl. fold ext.
    by rewrite !decide_False by done. }
  assert (loader_stale self f) as Hstale by (by left).
  split; [done|]. split.
  - rewrite (loader_get_df_stale _ self w f Hf Hstale). by rewrite Hload.
  - rewrite (loader_get_df_stale _ self (count_call w) f Hf Hstale).
    by rewrite Hload.
Qed.

Lemma unsupported_extension_raises_witness :
  DataLoaderFile._load (H := AsciiLib.lib)
    (λ _ _ _, Ok usd_sheet) (λ _ _, Ok usd_sheet)
    (DataLoaderFile.init (H := AsciiLib.lib) "data/macro.JSON" "Date" None)
    (mkWorld {["data/macro.JSON" := usd_book]} 0)
    = Raise (ValueError "Unsupported data file format: .json").
Proof.
  destruct (unsupported_extension_raises (H := AsciiLib.lib)
              (λ _ _ _, Ok usd_sheet) (λ _ _, Ok usd_sheet)
              "data/macro.JSON" "Date" None
              (mkWorld {["data/macro.JSON" := usd_book]} 0) usd_book)
    as [Hload _].
  - vm_compute. discriminate.
  - vm_compute. discriminate.
  - vm_compute. reflexivity.
  - rewrite Hload. vm_compute. reflexivity.
Defined.

(** X21: when [_load] returns a frame, it is the frame that
    [pd.read_excel] or [pd.read_csv] returned, with the same column
    labels, the same number of rows and cells, and the same cell
    everywhere outside the date column; and when no column has the
    label of the date column it is that frame unchanged. *)
Theorem load_only_retypes_date_column `{PyLib}
    (read_excel : string → option string → World → result RawFrame)
    (read_csv : string → World → result RawFrame)
    (self : DataLoader.DataCache) (w : World) (df : RawFrame) :
  DataLoaderFile._load read_excel read_csv self w = Ok df →
  ∃ df0,
    (read_excel (DataLoader.path self) (DataLoader.excel_sheet self) w = Ok df0 ∨
     read_csv (DataLoader.path self) w = Ok df0) ∧
    columns df = columns df0 ∧
    length (body df) = length (body df0) ∧
    (∀ (k : nat) row, body df !! k = Some row →
       ∃ row0, body df0 !! k = Some row0 ∧
               length row = length row0 ∧
               ∀ (j : nat) c, columns df0 !! j = Some c →
                              c ≠ DataLoader.date_column self →
                              row !! j = row0 !! j) ∧
    (DataLoader.date_column self ∉ columns df0 → df = df0).
Proof.
  unfold DataLoaderFile._load. intros Hload.
  set (ext := str_lower (splitext (DataLoader.path self)).2) in *.
  assert (∃ df0,
    (read_excel (DataLoader.path self) (DataLoader.excel_sheet self) w = Ok df0 ∨
     read_csv (DataLoader.path self) w = Ok df0) ∧
    df = DataLoaderFile.convert_date_column (DataLoader.date_column self) df0)
    as (df0 & Hread & ->).
  { destruct (decide (ext = ".xlsx")).
    - destruct (DataLoader.excel_sheet self) as [sh|];
        destruct (read_excel _ _ w) as [df0|] eqn:Hr; try done;
        injection Hload as <-; exists df0; split; auto.
    - destruct (decide (ext = ".csv")); [|done].
      destruct (read_csv _ w) as [df0|] eqn:Hr; [|done].
      injection Hload as <-. exists df0. split; auto. }
  exists df0. split; [done|].
  apply convert_date_column_shape.
Qed.

(** A comma-separated file whose date column is set to "Value", a
    column of numbers on which the conversion raises: the frame comes
    back as it was read. *)
Lemma load_only_retypes_date_column_witness :
  ∃ df0,
    ((λ _ _ _, Ok usd_sheet) "macro.CSV" (None : option string) usd_world
       = Ok df0 ∨
     (λ _ _, Ok plain_sheet) "macro.CSV" usd_world = Ok df0) ∧
    columns plain_sheet = columns df0 ∧
    length (body plain_sheet) = length (body df0).
Proof.
  assert (DataLoaderFile._load (H := AsciiLib.lib)
            (λ _ _ _, Ok usd_sheet) (λ _ _, Ok plain_sheet)
            (DataLoaderFile.init (H := AsciiLib.lib) "macro.CSV" "Value"
               (Some " "))
            usd_world = Ok plain_sheet) as Hload by (vm_compute; reflexivity).
  destruct (load_only_retypes_date_column (H := AsciiLib.lib) _ _ _ _ _ Hload)
    as (df0 & Hread & Hcols & Hlen & _).
  exists df0. split; [exact Hread|]. by split.
Defined.
